(** * weather-logs: the consumer's validation, persistence and acknowledgment
    lifecycle, and the producer's generator

    A shallow embedding of [src/consumer/consumer.py] and
    [src/producer/producer.py].

    - Decoded JSON payloads are values of [pyval]; a Python [dict] is a
      [gmap string pyval].
    - A Python [float] is NaN, an infinity, or a finite value that is
      represented by the rational number it denotes; an [int] is a [Z].
      Comparisons between ints and floats are exact in Python, so they are
      exact here.
    - A function that may raise returns a [result]; code that logs, writes to
      the store or signals the broker runs in the state monad [M] over a
      [world], in which a raised exception keeps the effects made so far.
    - An f-string is kept as its literal pieces and the values it formats
      ([fstring]). *)

From Stdlib Require Import QArith Qround.
From stdpp Require Import gmap strings list pretty.

#[local] Set Warnings "-register-all".
#[local] Open Scope Z_scope.

(** ** Python values *)

Inductive pyfloat :=
| FNaN
| FInf (negative : bool)
| FFin (q : Q).

Inductive pyval :=
| PyNone
| PyBool (b : bool)
| PyInt (z : Z)
| PyFloat (f : pyfloat)
| PyStr (s : string)
| PyList (l : list pyval)
| PyDict (d : gmap string pyval).

(** The exceptions the modelled code can meet; all of them derive from
    [Exception]. *)
Inductive exn :=
| TypeError
| AttributeError
| JSONDecodeError
| UnicodeDecodeError
| RecursionError
| DatabaseError.

#[global] Instance exn_eq_dec : EqDecision exn.
Proof. solve_decision. Defined.

Inductive result (A : Type) :=
| Returned (a : A)
| Raised (e : exn).
Arguments Returned {A} a.
Arguments Raised {A} e.

#[global] Instance result_ret : MRet result := fun A a => Returned a.
#[global] Instance result_bind : MBind result := fun A B k m =>
  match m with
  | Returned a => k a
  | Raised e => Raised e
  end.

(** An f-string: literal text and formatted values, in order. *)
Inductive fpiece :=
| Lit (s : string)
| Fmt (v : pyval).

Definition fstring := list fpiece.

(** ** Numbers *)

Inductive pynum :=
| NInt (z : Z)
| NFloat (f : pyfloat).

(** [isinstance(v, (int, float))], with the number when it holds: [bool] is a
    subclass of [int], [True] is 1 and [False] is 0. *)
Definition as_number (v : pyval) : option pynum :=
  match v with
  | PyBool b => Some (NInt (Z.b2z b))
  | PyInt z => Some (NInt z)
  | PyFloat f => Some (NFloat f)
  | _ => None
  end.

Inductive ereal :=
| NegInf
| Finite (q : Q)
| PosInf.

(** The extended real a number denotes; NaN denotes none. *)
Definition num_ereal (n : pynum) : option ereal :=
  match n with
  | NInt z => Some (Finite (inject_Z z))
  | NFloat FNaN => None
  | NFloat (FInf true) => Some NegInf
  | NFloat (FInf false) => Some PosInf
  | NFloat (FFin q) => Some (Finite q)
  end.

Definition Qlt_bool (p q : Q) : bool := negb (Qle_bool q p).

Definition ereal_ltb (x y : ereal) : bool :=
  match x, y with
  | NegInf, NegInf => false
  | NegInf, _ => true
  | Finite _, NegInf => false
  | Finite p, Finite q => Qlt_bool p q
  | Finite _, PosInf => true
  | PosInf, _ => false
  end.

(** Python's [a < b] on numbers: false as soon as one side is NaN. *)
Definition num_lt (a b : pynum) : bool :=
  match num_ereal a, num_ereal b with
  | Some x, Some y => ereal_ltb x y
  | _, _ => false
  end.

(** [a > b] *)
Definition num_gt (a b : pynum) : bool := num_lt b a.

(** ** Containers *)

(** [needle in hay] on two [str]: substring test. *)
Fixpoint str_contains (needle hay : string) : bool :=
  String.prefix needle hay ||
  match hay with
  | EmptyString => false
  | String _ rest => str_contains needle rest
  end.

(** [key == v] for a [str] key. *)
Definition eq_str (key : string) (v : pyval) : bool :=
  match v with
  | PyStr s => String.eqb key s
  | _ => false
  end.

(** [key in container] for a [str] key. *)
Definition py_in (key : string) (container : pyval) : result bool :=
  match container with
  | PyDict d => Returned (bool_decide (is_Some (d !! key)))
  | PyList l => Returned (existsb (eq_str key) l)
  | PyStr s => Returned (str_contains key s)
  | PyNone | PyBool _ | PyInt _ | PyFloat _ => Raised TypeError
  end.

(** [obj.get(key, default)]: only a [dict] has the method. *)
Definition py_get_default (obj : pyval) (key : string) (fallback : pyval)
  : result pyval :=
  match obj with
  | PyDict d => Returned (default fallback (d !! key))
  | _ => Raised AttributeError
  end.

(** [obj.get(key)] *)
Definition py_get (obj : pyval) (key : string) : result pyval :=
  py_get_default obj key PyNone.

(** ** consumer.py: [validate_payload] *)

Definition verdict : Type := bool * string * fstring.

Definition validate_payload (payload : pyval) : result verdict :=
  has_station ← py_in "station_id" payload;
  if negb has_station then mret (false, "invalid", [Lit "falta station_id"]) else
  has_temp ← py_in "temperature_c" payload;
  if negb has_temp then mret (false, "invalid", [Lit "falta temperature_c"]) else
  has_hum ← py_in "humidity_percent" payload;
  if negb has_hum then mret (false, "invalid", [Lit "falta humidity_percent"]) else
  temp ← py_get payload "temperature_c";
  match as_number temp with
  | None => mret (false, "invalid_type", [Lit "temperatura no es numérica"])
  | Some t =>
    if num_lt t (NInt (-100)) || num_gt t (NInt 100) then
      mret (false, "out_of_range",
            [Lit "temperatura "; Fmt temp; Lit "°C fuera de rango [-100, 100]"])
    else
    humidity ← py_get payload "humidity_percent";
    match as_number humidity with
    | None => mret (false, "invalid_type", [Lit "humedad no es numérica"])
    | Some h =>
      if num_lt h (NInt 0) || num_gt h (NInt 100) then
        mret (false, "out_of_range",
              [Lit "humedad "; Fmt humidity; Lit "% debe estar [0, 100]"])
      else
      wind ← py_get payload "wind_speed_ms";
      match wind with
      | PyNone => mret (true, "ok", [])
      | _ =>
        match as_number wind with
        | None => mret (false, "invalid_type", [Lit "viento no es numérico"])
        | Some w =>
          if num_lt w (NInt 0) then
            mret (false, "out_of_range",
                  [Lit "viento "; Fmt wind; Lit " m/s no puede ser negativo"])
          else mret (true, "ok", [])
        end
      end
    end
  end.

(** ** The consumer's surroundings: log, store and broker channel *)

Inductive level := INFO | WARNING | ERROR.

(** One constructor per [logger] call of consumer.py, with the values the
    line formats. *)
Inductive log_message :=
| MsgReceived (delivery_tag : N)
| MsgData (payload : pyval)
| MsgValidationFailed (reason : fstring)
| MsgValidationOK
| MsgSaved (station_id temperature : pyval) (final_status : fstring)
| MsgInsertError (e : exn)
| MsgAckSent
| MsgInvalidJSON (e : exn)
| MsgProcessingError (e : exn)
| MsgNackSent.

(** A log record: its level and its message. *)
Abbreviation log_record := (level * log_message)%type.

(** A row of the table [weather_logs], in the column order of the INSERT. *)
Record row := {
  col_station_id : pyval;
  col_timestamp : pyval;
  col_temperature_c : pyval;
  col_humidity_percent : pyval;
  col_wind_speed_ms : pyval;
  col_raw_payload : pyval;
  col_status : fstring
}.

(** How the store answers one use of the connection: it works, or
    [db_conn.cursor()] raises, or [cur.execute] raises. *)
Inductive db_response := Healthy | CursorError | ExecuteError.

(** The store behind [db_conn]: the table, and the answers the store will give
    to the coming uses of the connection (it is healthy once they are used
    up). *)
Record db_conn := {
  weather_logs : list row;
  upcoming : list db_response
}.

Record cursor := { accepts : bool }.

(** What goes over the channel, in order. *)
Inductive frame :=
| Deliver (delivery_tag : N)
| Ack (delivery_tag : N)
| Nack (delivery_tag : N) (requeue : bool).

Record channel := {
  exchanges : list (string * string * bool);
  queues : list (string * bool);
  bindings : list (string * string * string);
  prefetch_count : nat;
  consumer : option (string * bool);
  unacked : list N;
  frames : list frame
}.

Record world := {
  ch : channel;
  db : db_conn;
  log : list log_record;
  clock : string
}.

Definition set_ch (c : channel) (w : world) : world :=
  {| ch := c; db := db w; log := log w; clock := clock w |}.
Definition set_db (d : db_conn) (w : world) : world :=
  {| ch := ch w; db := d; log := log w; clock := clock w |}.
Definition set_log (l : list log_record) (w : world) : world :=
  {| ch := ch w; db := db w; log := l; clock := clock w |}.

(** ** The monad of effectful code *)

Definition M (A : Type) : Type := world -> result A * world.

#[global] Instance M_ret : MRet M := fun A a w => (Returned a, w).
#[global] Instance M_bind : MBind M := fun A B k m w =>
  match m w with
  | (Returned a, w') => k a w'
  | (Raised e, w') => (Raised e, w')
  end.

Definition lift {A} (r : result A) : M A := fun w => (r, w).

(** [try: body except Exception as e: handler e] *)
Definition try_except {A} (body : M A) (handler : exn -> M A) : M A := fun w =>
  match body w with
  | (Returned a, w') => (Returned a, w')
  | (Raised e, w') => handler e w'
  end.

Definition logger (lv : level) (m : log_message) : M unit := fun w =>
  (Returned tt, set_log (log w ++ [(lv, m)]) w).

(** [datetime.now(timezone.utc).isoformat()] *)
Definition utc_now_isoformat : M string := fun w => (Returned (clock w), w).

(** [db_conn.cursor()] *)
Definition db_cursor : M cursor := fun w =>
  let d := db w in
  let w' := set_db {| weather_logs := weather_logs d; upcoming := tail (upcoming d) |} w in
  match head (upcoming d) with
  | Some CursorError => (Raised DatabaseError, w')
  | Some ExecuteError => (Returned {| accepts := false |}, w')
  | Some Healthy | None => (Returned {| accepts := true |}, w')
  end.

(** [cur.execute("INSERT INTO weather_logs ... VALUES ...", r)]; the
    connection is in autocommit mode. *)
Definition cur_execute (cur : cursor) (r : row) : M unit := fun w =>
  if accepts cur then
    let d := db w in
    (Returned tt,
     set_db {| weather_logs := weather_logs d ++ [r]; upcoming := upcoming d |} w)
  else (Raised DatabaseError, w).

(** [cur.close()]; closing a client-side cursor does not fail. *)
Definition cur_close (cur : cursor) : M unit := mret tt.

Definition settle (delivery_tag : N) (c : channel) (f : frame) : channel :=
  {| exchanges := exchanges c; queues := queues c; bindings := bindings c;
     prefetch_count := prefetch_count c; consumer := consumer c;
     unacked := filter (fun t => t ≠ delivery_tag) (unacked c);
     frames := frames c ++ [f] |}.

(** [ch.basic_ack(delivery_tag=...)]; the channel is open, so the call
    returns. *)
Definition basic_ack (delivery_tag : N) : M unit := fun w =>
  (Returned tt, set_ch (settle delivery_tag (ch w) (Ack delivery_tag)) w).

(** [ch.basic_nack(delivery_tag=..., requeue=...)] *)
Definition basic_nack (delivery_tag : N) (requeue : bool) : M unit := fun w =>
  (Returned tt, set_ch (settle delivery_tag (ch w) (Nack delivery_tag requeue)) w).

(** ** consumer.py: [insert_into_db] *)

Definition insert_into_db (payload : pyval) (status : string)
    (error_reason : fstring) : M bool :=
  try_except
    (cur ← db_cursor;
     station_id ← lift (py_get payload "station_id");
     now ← utc_now_isoformat;
     timestamp ← lift (py_get_default payload "timestamp" (PyStr now));
     temperature ← lift (py_get payload "temperature_c");
     humidity ← lift (py_get payload "humidity_percent");
     wind ← lift (py_get payload "wind_speed_ms");
     let final_status :=
       if String.eqb status "ok" then [Lit status] else error_reason in
     _ ← cur_execute cur
           {| col_station_id := station_id;
              col_timestamp := timestamp;
              col_temperature_c := temperature;
              col_humidity_percent := humidity;
              col_wind_speed_ms := wind;
              col_raw_payload := payload;
              col_status := final_status |};
     _ ← cur_close cur;
     _ ← logger INFO (MsgSaved station_id temperature final_status);
     mret true)
    (fun e =>
     _ ← logger ERROR (MsgInsertError e);
     mret false).

(** ** consumer.py: [on_message_received] *)

Record method := { delivery_tag : N }.

Section Dispatcher.

(** [json.loads]: a function of the body alone, which returns the decoded
    value or raises. *)
Variable json_loads : string -> result pyval.

Definition on_message_received (meth : method) (body : string) : M unit :=
  _ ← logger INFO (MsgReceived (delivery_tag meth));
  try_except
    (payload ← lift (json_loads body);
     _ ← logger INFO (MsgData payload);
     '(is_valid, status, reason) ← lift (validate_payload payload);
     _ ← (if negb is_valid
          then logger WARNING (MsgValidationFailed reason)
          else logger INFO MsgValidationOK);
     _ ← insert_into_db payload status reason;
     _ ← basic_ack (delivery_tag meth);
     logger INFO MsgAckSent)
    (fun e =>
     match e with
     | JSONDecodeError =>
         _ ← logger ERROR (MsgInvalidJSON e);
         basic_ack (delivery_tag meth)
     | _ =>
         _ ← logger ERROR (MsgProcessingError e);
         _ ← basic_nack (delivery_tag meth) false;
         logger INFO MsgNackSent
     end).

End Dispatcher.

(** ** consumer.py: [connect_rabbitmq] and the consuming loop *)

Definition EXCHANGE : string := "weather_exchange".
Definition QUEUE : string := "weather_queue".
Definition ROUTING_KEY : string := "weather.logs".

(** [conn.channel()]: a fresh channel has no prefetch limit (0) and no
    consumer. *)
Definition new_channel : channel :=
  {| exchanges := []; queues := []; bindings := []; prefetch_count := 0;
     consumer := None; unacked := []; frames := [] |}.

Definition exchange_declare (exchange exchange_type : string) (durable : bool)
    (c : channel) : channel :=
  {| exchanges := exchanges c ++ [(exchange, exchange_type, durable)];
     queues := queues c; bindings := bindings c;
     prefetch_count := prefetch_count c; consumer := consumer c;
     unacked := unacked c; frames := frames c |}.

Definition queue_declare (queue : string) (durable : bool) (c : channel)
    : channel :=
  {| exchanges := exchanges c; queues := queues c ++ [(queue, durable)];
     bindings := bindings c;
     prefetch_count := prefetch_count c; consumer := consumer c;
     unacked := unacked c; frames := frames c |}.

Definition queue_bind (queue exchange routing_key : string) (c : channel)
    : channel :=
  {| exchanges := exchanges c; queues := queues c;
     bindings := bindings c ++ [(queue, exchange, routing_key)];
     prefetch_count := prefetch_count c; consumer := consumer c;
     unacked := unacked c; frames := frames c |}.

Definition basic_qos (prefetch : nat) (c : channel) : channel :=
  {| exchanges := exchanges c; queues := queues c; bindings := bindings c;
     prefetch_count := prefetch; consumer := consumer c;
     unacked := unacked c; frames := frames c |}.

Definition basic_consume (queue : string) (auto_ack : bool) (c : channel)
    : channel :=
  {| exchanges := exchanges c; queues := queues c; bindings := bindings c;
     prefetch_count := prefetch_count c; consumer := Some (queue, auto_ack);
     unacked := unacked c; frames := frames c |}.

(** The channel [connect_rabbitmq] returns once the connection succeeded (the
    retries on a connection error come before and leave no trace on it). *)
Definition connect_rabbitmq : channel :=
  basic_qos 1
    (queue_bind QUEUE EXCHANGE ROUTING_KEY
       (queue_declare QUEUE true
          (exchange_declare EXCHANGE "direct" true new_channel))).

(** Modelled from the spec: the broker and the client library's consuming
    loop, which are not code of this repository. The glossary's rule is that
    prefetch is the "maximum number of unacknowledged messages a consumer may
    hold at once": the broker pushes the next ready message over the channel
    only while that number is below the channel's prefetch count (0 is no
    limit), and with automatic acknowledgment it counts none. The client
    library buffers what was pushed and runs the callback on one buffered
    delivery at a time, as [ch.start_consuming()] does. *)
Record system := {
  ready : list string;
  next_tag : N;
  inbox : list (method * string);
  env : world
}.

Inductive action := BrokerPush | ClientDispatch.

(** Modelled from the spec: the broker may push while the channel has no
    prefetch limit, or holds fewer unacknowledged messages than the limit. *)
Definition window_open (c : channel) : bool :=
  (prefetch_count c =? 0)%nat || (length (unacked c) <? prefetch_count c)%nat.

(** Modelled from the spec: a delivery goes over the channel, and counts as
    unacknowledged unless the consumer acknowledges automatically. *)
Definition push (tag : N) (auto_ack : bool) (c : channel) : channel :=
  {| exchanges := exchanges c; queues := queues c; bindings := bindings c;
     prefetch_count := prefetch_count c; consumer := consumer c;
     unacked := if auto_ack then unacked c else unacked c ++ [tag];
     frames := frames c ++ [Deliver tag] |}.

Section Consuming.

Variable json_loads : string -> result pyval.

(** Modelled from the spec: one step of the broker (push the next ready
    message under the next delivery tag, if the window is open) or of the
    client library (run [on_message_received] on the oldest buffered
    delivery). A step that cannot be taken leaves the system as it is. *)
Definition step (s : system) (a : action) : system :=
  match a with
  | BrokerPush =>
      match ready s, consumer (ch (env s)) with
      | body :: rest, Some (_, auto_ack) =>
          if auto_ack || window_open (ch (env s)) then
            {| ready := rest;
               next_tag := N.succ (next_tag s);
               inbox := inbox s ++ [({| delivery_tag := next_tag s |}, body)];
               env := set_ch (push (next_tag s) auto_ack (ch (env s))) (env s) |}
          else s
      | _, _ => s
      end
  | ClientDispatch =>
      match inbox s with
      | (meth, body) :: rest =>
          {| ready := ready s;
             next_tag := next_tag s;
             inbox := rest;
             env := snd (on_message_received json_loads meth body (env s)) |}
      | [] => s
      end
  end.

(** Modelled from the spec: the steps of a schedule, in order. *)
Definition run (sched : list action) (s : system) : system :=
  fold_left step sched s.

End Consuming.

(** The consumer of [main()] right before [ch.start_consuming()]: the store
    connected, the channel of [connect_rabbitmq] with the callback registered
    under manual acknowledgment, and [bodies] waiting in the queue. *)
Definition listening (bodies : list string) (store : db_conn) (now : string)
    : system :=
  {| ready := bodies;
     next_tag := 1%N;
     inbox := [];
     env := {| ch := basic_consume QUEUE false connect_rabbitmq;
               db := store; log := []; clock := now |} |}.

(** Reading a channel's frames in order: the delivery that is outstanding
    after them, or [None] as soon as a message is delivered while another is
    outstanding, or a delivery other than the outstanding one is settled. *)
Definition track (state : option (option N)) (f : frame)
    : option (option N) :=
  match state, f with
  | Some None, Deliver t => Some (Some t)
  | Some (Some t'), Ack t | Some (Some t'), Nack t _ =>
      if N.eqb t t' then Some None else None
  | _, _ => None
  end.

Definition one_at_a_time (fs : list frame) : bool :=
  bool_decide (is_Some (fold_left track fs (Some None))).

(** ** producer.py: [generate_weather_data] *)

(** What one call draws from the random source and the clock, in the order of
    the calls: [random.randint(1, 5)], [random.uniform(-10, 40)],
    [random.uniform(20, 95)], [random.uniform(0, 25)] and the current time. *)
Record draws := {
  randint_1_5 : Z;
  uniform_m10_40 : Q;
  uniform_20_95 : Q;
  uniform_0_25 : Q;
  now_isoformat : string
}.

(** Rounding to the nearest integer, ties to the even one. *)
Definition round_half_even (x : Q) : Z :=
  let f := Qfloor x in
  match (x - inject_Z f ?= 1 # 2)%Q with
  | Lt => f
  | Gt => f + 1
  | Eq => if Z.even f then f else f + 1
  end.

(** [round(x, ndigits)] on the number a float denotes: the nearest multiple of
    [10 ^ -ndigits], ties to even. (Python returns the float nearest to that
    decimal; this last step is monotone, fixes the integers used as bounds
    below, and is left out.) *)
Definition py_round (x : Q) (ndigits : nat) : Q :=
  let scale := inject_Z (10 ^ Z.of_nat ndigits) in
  (inject_Z (round_half_even (x * scale)) / scale)%Q.

Definition generate_weather_data (r : draws) : pyval :=
  let station_id := "station_" +:+ pretty (randint_1_5 r) in
  let temperature_c := py_round (uniform_m10_40 r) 2 in
  let humidity_percent := py_round (uniform_20_95 r) 2 in
  let wind_speed_ms := py_round (uniform_0_25 r) 3 in
  PyDict
    (<["station_id" := PyStr station_id]>
    (<["timestamp" := PyStr (now_isoformat r)]>
    (<["temperature_c" := PyFloat (FFin temperature_c)]>
    (<["humidity_percent" := PyFloat (FFin humidity_percent)]>
    (<["wind_speed_ms" := PyFloat (FFin wind_speed_ms)]> ∅))))).

(** ** The validator's checks as a list of rules

    Each rule says when a payload violates it and what is reported then. A
    field that is absent reads as [None], as [payload.get] gives it. The
    conditions of [validation_rules] are the tests the code makes: a range rule
    is violated by a number that compares below the lower or above the upper
    bound, and the wind rules are not violated by a null wind speed. *)

Definition field (d : gmap string pyval) (key : string) : pyval :=
  default PyNone (d !! key).

Definition missing (key : string) (d : gmap string pyval) : bool :=
  bool_decide (d !! key = None).

Definition not_numeric (key : string) (d : gmap string pyval) : bool :=
  bool_decide (as_number (field d key) = None).

Definition outside (lo hi : Z) (key : string) (d : gmap string pyval) : bool :=
  match as_number (field d key) with
  | Some n => num_lt n (NInt lo) || num_gt n (NInt hi)
  | None => false
  end.

Definition below (lo : Z) (key : string) (d : gmap string pyval) : bool :=
  match as_number (field d key) with
  | Some n => num_lt n (NInt lo)
  | None => false
  end.

Definition not_null (key : string) (d : gmap string pyval) : bool :=
  match field d key with
  | PyNone => false
  | _ => true
  end.

Record rule := {
  violated : gmap string pyval -> bool;
  reported : gmap string pyval -> string * fstring
}.

Definition validation_rules : list rule :=
  [ {| violated := missing "station_id";
       reported := fun _ => ("invalid", [Lit "falta station_id"]) |};
    {| violated := missing "temperature_c";
       reported := fun _ => ("invalid", [Lit "falta temperature_c"]) |};
    {| violated := missing "humidity_percent";
       reported := fun _ => ("invalid", [Lit "falta humidity_percent"]) |};
    {| violated := not_numeric "temperature_c";
       reported := fun _ => ("invalid_type", [Lit "temperatura no es numérica"]) |};
    {| violated := outside (-100) 100 "temperature_c";
       reported := fun d =>
         ("out_of_range",
          [Lit "temperatura "; Fmt (field d "temperature_c");
           Lit "°C fuera de rango [-100, 100]"]) |};
    {| violated := not_numeric "humidity_percent";
       reported := fun _ => ("invalid_type", [Lit "humedad no es numérica"]) |};
    {| violated := outside 0 100 "humidity_percent";
       reported := fun d =>
         ("out_of_range",
          [Lit "humedad "; Fmt (field d "humidity_percent");
           Lit "% debe estar [0, 100]"]) |};
    {| violated := fun d =>
         not_null "wind_speed_ms" d && not_numeric "wind_speed_ms" d;
       reported := fun _ => ("invalid_type", [Lit "viento no es numérico"]) |};
    {| violated := below 0 "wind_speed_ms";
       reported := fun d =>
         ("out_of_range",
          [Lit "viento "; Fmt (field d "wind_speed_ms");
           Lit " m/s no puede ser negativo"]) |} ].

(** The verdict the earliest violated rule of [rules] gives, and acceptance
    when none is violated. *)
Fixpoint first_failure (rules : list rule) (d : gmap string pyval) : verdict :=
  match rules with
  | [] => (true, "ok", [])
  | r :: rest =>
      if violated r d then (false, fst (reported r d), snd (reported r d))
      else first_failure rest d
  end.

(** No rule of [rules] is violated. *)
Definition passes (rules : list rule) (d : gmap string pyval) : bool :=
  forallb (fun r => negb (violated r d)) rules.

(** ** Ranges, as the specification states them *)

Definition ereal_le (x y : ereal) : Prop :=
  match x, y with
  | NegInf, _ => True
  | _, PosInf => True
  | Finite p, Finite q => (p <= q)%Q
  | _, _ => False
  end.

(** [v] is a number that lies in the closed interval from [lo] to [hi]. *)
Definition in_interval (lo hi : Z) (v : pyval) : Prop :=
  exists n x, as_number v = Some n /\ num_ereal n = Some x /\
    ereal_le (Finite (inject_Z lo)) x /\ ereal_le x (Finite (inject_Z hi)).

(** [v] is a number and is at least [lo]. *)
Definition at_least (lo : Z) (v : pyval) : Prop :=
  exists n x, as_number v = Some n /\ num_ereal n = Some x /\
    ereal_le (Finite (inject_Z lo)) x.

(** The body of [validate_payload] once the payload is known to be a [dict],
    as a function of the four lookups it makes. *)
Definition check_fields (station temp hum wind : option pyval) : verdict :=
  match station, temp, hum with
  | None, _, _ => (false, "invalid", [Lit "falta station_id"])
  | Some _, None, _ => (false, "invalid", [Lit "falta temperature_c"])
  | Some _, Some _, None => (false, "invalid", [Lit "falta humidity_percent"])
  | Some _, Some t, Some h =>
    match as_number t with
    | None => (false, "invalid_type", [Lit "temperatura no es numérica"])
    | Some nt =>
      if num_lt nt (NInt (-100)) || num_gt nt (NInt 100) then
        (false, "out_of_range",
         [Lit "temperatura "; Fmt t; Lit "°C fuera de rango [-100, 100]"])
      else
      match as_number h with
      | None => (false, "invalid_type", [Lit "humedad no es numérica"])
      | Some nh =>
        if num_lt nh (NInt 0) || num_gt nh (NInt 100) then
          (false, "out_of_range",
           [Lit "humedad "; Fmt h; Lit "% debe estar [0, 100]"])
        else
        match default PyNone wind with
        | PyNone => (true, "ok", [])
        | w =>
          match as_number w with
          | None => (false, "invalid_type", [Lit "viento no es numérico"])
          | Some nw =>
            if num_lt nw (NInt 0) then
              (false, "out_of_range",
               [Lit "viento "; Fmt w; Lit " m/s no puede ser negativo"])
            else (true, "ok", [])
          end
        end
      end
    end
  end.

(** ** Sample inputs *)

(** [{station_id: "station_1", temperature_c: 22.5, humidity_percent: 55.0,
    wind_speed_ms: 3.2}] *)
Definition sample_reading : gmap string pyval :=
  <["station_id" := PyStr "station_1"]>
  (<["temperature_c" := PyFloat (FFin (45 # 2))]>
  (<["humidity_percent" := PyFloat (FFin (55 # 1))]>
  (<["wind_speed_ms" := PyFloat (FFin (16 # 5))]> ∅))).

(** [{station_id: "s", temperature_c: 20, humidity_percent: 50,
    wind_speed_ms: null}] *)
Definition null_wind_reading : gmap string pyval :=
  <["station_id" := PyStr "s"]>
  (<["temperature_c" := PyInt 20]>
  (<["humidity_percent" := PyInt 50]>
  (<["wind_speed_ms" := PyNone]> ∅))).

(** [{station_id: "s", temperature_c: 20, humidity_percent: 50,
    wind_speed_ms: -1}] *)
Definition negative_wind_reading : gmap string pyval :=
  <["station_id" := PyStr "s"]>
  (<["temperature_c" := PyInt 20]>
  (<["humidity_percent" := PyInt 50]>
  (<["wind_speed_ms" := PyInt (-1)]> ∅))).

(** One call of the generator: station 3, and the draws -1.23456, 20.0 and
    24.9996. *)
Definition sample_draws : draws :=
  {| randint_1_5 := 3;
     uniform_m10_40 := (-123456 # 100000)%Q;
     uniform_20_95 := (20 # 1)%Q;
     uniform_0_25 := (249996 # 10000)%Q;
     now_isoformat := "2024-05-01T12:00:00+00:00" |}.

(** ** Two states of the dispatcher

    The state in which the persister is called: the message was logged as
    received, then the payload, then the validator's verdict. *)
Definition before_insert (meth : method) (payload : pyval) (v : verdict)
    (w : world) : world :=
  set_log
    (log w ++
     [(INFO, MsgReceived (delivery_tag meth)); (INFO, MsgData payload);
      if v.1.1 then (INFO, MsgValidationOK)
      else (WARNING, MsgValidationFailed v.2)]) w.

(** The state after [ch.basic_ack] and the log line that follows it. *)
Definition after_ack (meth : method) (w : world) : world :=
  {| ch := settle (delivery_tag meth) (ch w) (Ack (delivery_tag meth));
     db := db w;
     log := log w ++ [(INFO, MsgAckSent)];
     clock := clock w |}.

(** ** Sample deliveries *)

(** [s] between double quotes (character 34). *)
Definition quoted (s : string) : string :=
  String (Ascii.ascii_of_nat 34) (s +:+ String (Ascii.ascii_of_nat 34) EmptyString).

(** The JSON text of [sample_reading]. *)
Definition sample_body : string :=
  "{" +:+ quoted "station_id" +:+ ": " +:+ quoted "station_1" +:+ ", " +:+
  quoted "temperature_c" +:+ ": 22.5, " +:+
  quoted "humidity_percent" +:+ ": 55.0, " +:+
  quoted "wind_speed_ms" +:+ ": 3.2}".

(** [json.loads] on the bodies of the examples: the text of the sample
    reading, the number [5] and the empty array [[]]; every other body of the
    examples ("station down") is not JSON. *)
Definition sample_json_loads (body : string) : result pyval :=
  if String.eqb body sample_body then Returned (PyDict sample_reading)
  else if String.eqb body "5" then Returned (PyInt 5)
  else if String.eqb body "[]" then Returned (PyList [])
  else Raised JSONDecodeError.

Definition first_delivery : method := {| delivery_tag := 1 |}.

(** The consumer of [main()] when the callback is entered for the first
    delivery, with the store [store]. *)
Definition first_delivery_world (store : db_conn) : world :=
  {| ch := push 1 false (basic_consume QUEUE false connect_rabbitmq);
     db := store;
     log := [];
     clock := "2024-05-01T12:00:00+00:00" |}.

Definition healthy_store : db_conn :=
  {| weather_logs := []; upcoming := [] |}.

(** A store whose next write fails. *)
Definition failing_store : db_conn :=
  {| weather_logs := []; upcoming := [ExecuteError] |}.

(** ** The consuming loop, between two steps *)

Definition tags (deliveries : list (method * string)) : list N :=
  map (fun x => delivery_tag (fst x)) deliveries.

(** The channel has the prefetch count 1 and a consumer with manual
    acknowledgment; its frames so far are one delivery at a time; and the
    delivery left outstanding by them, if any, is the one unacknowledged
    message, which is the one buffered for the callback. *)
Definition sequential (s : system) : Prop :=
  prefetch_count (ch (env s)) = 1%nat /\
  (exists q, consumer (ch (env s)) = Some (q, false)) /\
  exists o : option N,
    fold_left track (frames (ch (env s))) (Some None) = Some o /\
    unacked (ch (env s)) = option_list o /\
    tags (inbox s) = option_list o.

(** The consumer as it would listen had [basic_qos] not been called. *)
Definition listening_without_qos (bodies : list string) (store : db_conn)
    (now : string) : system :=
  {| ready := bodies;
     next_tag := 1%N;
     inbox := [];
     env := {| ch := basic_consume QUEUE false
                       (queue_bind QUEUE EXCHANGE ROUTING_KEY
                          (queue_declare QUEUE true
                             (exchange_declare EXCHANGE "direct" true
                                new_channel)));
               db := store; log := []; clock := now |} |}.

(** ** More on ranges *)

Definition ereal_lt (x y : ereal) : Prop :=
  match x, y with
  | NegInf, NegInf => False
  | NegInf, _ => True
  | Finite p, Finite q => (p < q)%Q
  | Finite _, PosInf => True
  | _, _ => False
  end.

(** [v] is a number that lies below [lo] or above [hi]. *)
Definition out_of_interval (lo hi : Z) (v : pyval) : Prop :=
  exists n x, as_number v = Some n /\ num_ereal n = Some x /\
    (ereal_lt x (Finite (inject_Z lo)) \/ ereal_lt (Finite (inject_Z hi)) x).

(** [v] is a number that is NaN or lies between [lo] and [hi]. *)
Definition nan_or_within (lo hi : ereal) (v : pyval) : Prop :=
  exists n, as_number v = Some n /\
    (num_ereal n = None \/
     exists x, num_ereal n = Some x /\ ereal_le lo x /\ ereal_le x hi).

(** [{station_id: "station_2", temperature_c: 500, humidity_percent: 50}] *)
Definition hot_reading : gmap string pyval :=
  <["station_id" := PyStr "station_2"]>
  (<["temperature_c" := PyInt 500]>
  (<["humidity_percent" := PyInt 50]> ∅)).

(** [{station_id: "station_2", temperature_c: 20, humidity_percent: -5}] *)
Definition dry_reading : gmap string pyval :=
  <["station_id" := PyStr "station_2"]>
  (<["temperature_c" := PyInt 20]>
  (<["humidity_percent" := PyInt (-5)]> ∅)).

(** ** Draining the queue *)

(** The schedule in which the broker pushes and the callback runs, [n] times
    in turn. *)
Fixpoint in_turn (n : nat) : list action :=
  match n with
  | O => []
  | S n' => BrokerPush :: ClientDispatch :: in_turn n'
  end.

(** The delivery tags of the deliveries among the frames, in order. *)
Definition deliveries (fs : list frame) : list N :=
  omap (fun f => match f with Deliver t => Some t | _ => None end) fs.

(** Nothing is buffered or unacknowledged, on a channel with prefetch count 1
    and a consumer under manual acknowledgment. *)
Definition idle (s : system) : Prop :=
  prefetch_count (ch (env s)) = 1%nat /\
  (exists q, consumer (ch (env s)) = Some (q, false)) /\
  inbox s = [] /\ unacked (ch (env s)) = [].

(** ** consumer.py: [connect_db] *)

(** How [psycopg2.connect] answers one attempt. *)
Inductive connect_answer :=
| Connects
| RaisesOperationalError
| RaisesOther (e : exn).

Record pg_connection := { autocommit : bool }.

(** What [connect_db] does besides returning: its log lines and its
    sleeps. *)
Inductive boot_event :=
| LogConnected
| LogConnectError
| LogRetrying
| Slept (seconds : Z).

(** [connect_db] against the answers of the coming attempts: the connection
    it returns or the exception it lets through, with what it did before;
    [None] when the answers run out while it is still retrying. *)
Fixpoint connect_db (answers : list connect_answer)
    : option (result pg_connection * list boot_event) :=
  match answers with
  | [] => None
  | Connects :: _ =>
      Some (Returned {| autocommit := true |}, [LogConnected])
  | RaisesOperationalError :: rest =>
      match connect_db rest with
      | Some (r, events) =>
          Some (r, LogConnectError :: LogRetrying :: Slept 3 :: events)
      | None => None
      end
  | RaisesOther e :: _ => Some (Raised e, [])
  end.

(** ** producer.py *)

Module Producer.

Definition EXCHANGE : string := "weather_exchange".
Definition ROUTING_KEY : string := "weather.logs".

(** The exceptions the publisher can meet; all of them derive from
    [Exception]. *)
Inductive error :=
| KeyError
| TypeError
| AMQPChannelError
| AMQPConnectionError.

Inductive outcome (A : Type) :=
| Done (a : A)
| Failed (e : error).
Arguments Done {A} a.
Arguments Failed {A} e.

(** One constructor per [logger] call of producer.py's publishing path. *)
Inductive log_message :=
| MsgExchangeDeclared (exchange : string)
| MsgDeclareError (e : error)
| MsgPublished (station_id temperature : pyval)
| MsgPublishError (e : error)
| MsgLoopError (e : error)
| MsgSessionTotal (message_count : nat)
| MsgFatal (e : error).

(** [pika.BasicProperties] as [publish_message] fills it. *)
Record properties := {
  delivery_mode : Z;
  content_type : string;
  message_id : string;
  timestamp : Z
}.

Record publication := {
  pub_exchange : string;
  pub_routing_key : string;
  pub_body : string;
  pub_properties : properties
}.

(** How the broker answers one call on the channel. *)
Inductive answer := Accepts | Refuses (e : error).

(** The publisher's surroundings: the exchanges declared and the messages
    published on the broker, the answers the broker gives to the coming calls
    (it accepts once they are used up), the source of [uuid.uuid4()] and how
    many were drawn, the clock in milliseconds, the seconds slept, the log. *)
Record state := {
  declared : list (string * string * bool);
  outbox : list publication;
  answers : list answer;
  uuid_of : nat -> string;
  uuids_drawn : nat;
  time_ms : Z;
  slept : Z;
  log : list (level * log_message)
}.

Definition P (A : Type) : Type := state -> outcome A * state.

#[global] Instance P_ret : MRet P := fun A a s => (Done a, s).
#[global] Instance P_bind : MBind P := fun A B k m s =>
  match m s with
  | (Done a, s') => k a s'
  | (Failed e, s') => (Failed e, s')
  end.

Definition lift {A} (r : outcome A) : P A := fun s => (r, s).

(** [try: body except <the classes catches accepts> as e: handler e] *)
Definition try_except {A} (catches : error -> bool) (body : P A)
    (handler : error -> P A) : P A := fun s =>
  match body s with
  | (Done a, s') => (Done a, s')
  | (Failed e, s') => if catches e then handler e s' else (Failed e, s')
  end.

(** [except Exception] *)
Definition any_exception (e : error) : bool := true.

(** [except AMQPChannelError] *)
Definition channel_error (e : error) : bool :=
  match e with
  | AMQPChannelError => true
  | _ => false
  end.

Definition logger (lv : level) (m : log_message) : P unit := fun s =>
  (Done tt,
   {| declared := declared s; outbox := outbox s; answers := answers s;
      uuid_of := uuid_of s; uuids_drawn := uuids_drawn s;
      time_ms := time_ms s; slept := slept s;
      log := log s ++ [(lv, m)] |}).

(** [str(uuid.uuid4())] *)
Definition uuid4 : P string := fun s =>
  (Done (uuid_of s (uuids_drawn s)),
   {| declared := declared s; outbox := outbox s; answers := answers s;
      uuid_of := uuid_of s; uuids_drawn := S (uuids_drawn s);
      time_ms := time_ms s; slept := slept s; log := log s |}).

(** [int(time.time() * 1000)] *)
Definition time_time_ms : P Z := fun s => (Done (time_ms s), s).

(** [time.sleep(seconds)] *)
Definition sleep (seconds : Z) : P unit := fun s =>
  (Done tt,
   {| declared := declared s; outbox := outbox s; answers := answers s;
      uuid_of := uuid_of s; uuids_drawn := uuids_drawn s;
      time_ms := time_ms s + 1000 * seconds; slept := slept s + seconds;
      log := log s |}).

(** The broker's answer to the call being made. *)
Definition broker_answer : P unit := fun s =>
  let s' :=
    {| declared := declared s; outbox := outbox s; answers := tail (answers s);
       uuid_of := uuid_of s; uuids_drawn := uuids_drawn s;
       time_ms := time_ms s; slept := slept s; log := log s |} in
  match head (answers s) with
  | Some (Refuses e) => (Failed e, s')
  | Some Accepts | None => (Done tt, s')
  end.

(** The broker takes note of a declared exchange. *)
Definition broker_declares (exchange exchange_type : string) (durable : bool)
    : P unit := fun s =>
  (Done tt,
   {| declared := declared s ++ [(exchange, exchange_type, durable)];
      outbox := outbox s; answers := answers s;
      uuid_of := uuid_of s; uuids_drawn := uuids_drawn s;
      time_ms := time_ms s; slept := slept s; log := log s |}).

(** The broker takes a published message. *)
Definition broker_takes (p : publication) : P unit := fun s =>
  (Done tt,
   {| declared := declared s; outbox := outbox s ++ [p];
      answers := answers s;
      uuid_of := uuid_of s; uuids_drawn := uuids_drawn s;
      time_ms := time_ms s; slept := slept s; log := log s |}).

(** [ch.exchange_declare(exchange=..., exchange_type=..., durable=...)] *)
Definition exchange_declare (exchange exchange_type : string) (durable : bool)
    : P unit :=
  _ ← broker_answer;
  broker_declares exchange exchange_type durable.

(** [ch.basic_publish(exchange=..., routing_key=..., body=...,
    properties=...)] *)
Definition basic_publish (exchange routing_key body : string)
    (props : properties) : P unit :=
  _ ← broker_answer;
  broker_takes {| pub_exchange := exchange; pub_routing_key := routing_key;
                  pub_body := body; pub_properties := props |}.

(** [obj[key]] for a [str] key: only a [dict] can be indexed by it. *)
Definition py_getitem (obj : pyval) (key : string) : outcome pyval :=
  match obj with
  | PyDict d =>
      match d !! key with
      | Some v => Done v
      | None => Failed KeyError
      end
  | _ => Failed TypeError
  end.

(** [declare_exchange] *)
Definition declare_exchange : P unit :=
  try_except channel_error
    (_ ← exchange_declare EXCHANGE "direct" true;
     logger INFO (MsgExchangeDeclared EXCHANGE))
    (fun e => logger ERROR (MsgDeclareError e)).

Section Publishing.

(** [json.dumps], which returns on every decoded JSON value. *)
Variable json_dumps : pyval -> string.

(** [publish_message] *)
Definition publish_message (payload : pyval) : P unit :=
  try_except any_exception
    (let body := json_dumps payload in
     id ← uuid4;
     now ← time_time_ms;
     _ ← basic_publish EXCHANGE ROUTING_KEY body
           {| delivery_mode := 2;
              content_type := "application/json";
              message_id := id;
              timestamp := now |};
     station_id ← lift (py_getitem payload "station_id");
     temperature ← lift (py_getitem payload "temperature_c");
     logger INFO (MsgPublished station_id temperature))
    (fun e => logger ERROR (MsgPublishError e)).

(** The body of the publishing loop of [main()]: one reading generated from
    the draws [r], published, counted, and the pause. *)
Definition loop_body (r : draws) (message_count : nat) : P nat :=
  let payload := generate_weather_data r in
  _ ← publish_message payload;
  let message_count := S message_count in
  _ ← sleep 2;
  mret message_count.

(** The publishing loop of [main()] over its first iterations, one per
    element of [ticks]; an exception in an iteration is logged and ends the
    loop. The counter is what the loop leaves in [message_count]. *)
Fixpoint publication_loop (ticks : list draws) (message_count : nat) : P nat :=
  match ticks with
  | [] => mret message_count
  | r :: rest => fun s =>
      match loop_body r message_count s with
      | (Done n, s') => publication_loop rest n s'
      | (Failed e, s') =>
          (_ ← logger ERROR (MsgLoopError e); mret message_count) s'
      end
  end.

(** One connection session of [main()], from the declaration of the exchange
    to the line that reports the session's total, under the [except Exception]
    of the outer [try]. *)
Definition session (ticks : list draws) : P unit :=
  try_except any_exception
    (_ ← declare_exchange;
     message_count ← publication_loop ticks 0;
     logger INFO (MsgSessionTotal message_count))
    (fun e => logger ERROR (MsgFatal e)).

End Publishing.

(** The readings of [ticks] whose publication the broker accepts, when it
    answers the publications in order with [answers]. *)
Fixpoint accepted_ticks (ticks : list draws) (answers : list answer)
    : list draws :=
  match ticks with
  | [] => []
  | r :: rest =>
      match head answers with
      | Some (Refuses _) => accepted_ticks rest (tail answers)
      | Some Accepts | None => r :: accepted_ticks rest (tail answers)
      end
  end.

(** A publisher that has done nothing yet, facing a broker that gives
    [answers]. *)
Definition fresh (answers : list answer) : state :=
  {| declared := []; outbox := []; answers := answers;
     uuid_of := fun n => "uuid-" +:+ pretty n; uuids_drawn := 0;
     time_ms := 1714564800000; slept := 0; log := [] |}.

End Producer.

(** The message [publish_message] hands to the broker from the state [s]. *)
Definition published (json_dumps : pyval -> string) (payload : pyval)
    (s : Producer.state) : Producer.publication :=
  {| Producer.pub_exchange := "weather_exchange";
     Producer.pub_routing_key := "weather.logs";
     Producer.pub_body := json_dumps payload;
     Producer.pub_properties :=
       {| Producer.delivery_mode := 2;
          Producer.content_type := "application/json";
          Producer.message_id := Producer.uuid_of s (Producer.uuids_drawn s);
          Producer.timestamp := Producer.time_ms s |} |}.

(** The JSON text of the reading generated from [sample_draws]. *)
Definition generated_body : string :=
  "{" +:+ quoted "station_id" +:+ ": " +:+ quoted "station_3" +:+ ", " +:+
  quoted "timestamp" +:+ ": " +:+ quoted "2024-05-01T12:00:00+00:00" +:+ ", " +:+
  quoted "temperature_c" +:+ ": -1.23, " +:+
  quoted "humidity_percent" +:+ ": 20.0, " +:+
  quoted "wind_speed_ms" +:+ ": 25.0}".

(** [json.dumps] and [json.loads] on the generated sample: the one payload
    and the one body of the example. *)
Definition generated_json_dumps (payload : pyval) : string := generated_body.

Definition generated_json_loads (body : string) : result pyval :=
  if String.eqb body generated_body
  then Returned (generate_weather_data sample_draws)
  else Raised JSONDecodeError.

(** ** The rules in the specification's words

    Section 4.4: required keys present; [temperature_c] "must be numeric" and
    "must lie in [-100, 100]"; [humidity_percent] "must be numeric" and "must
    lie in [0, 100]"; [wind_speed_ms], "if present, must be numeric" and
    "non-negative". A value lies in a range when it is a number whose value is
    between the bounds, which NaN is not. *)

Definition ereal_leb (x y : ereal) : bool :=
  match x, y with
  | NegInf, _ => true
  | _, PosInf => true
  | Finite p, Finite q => Qle_bool p q
  | _, _ => false
  end.

(** [v] is a number whose value lies between [lo] and [hi]. *)
Definition lies_in (lo hi : ereal) (v : pyval) : bool :=
  match as_number v with
  | Some n =>
      match num_ereal n with
      | Some x => ereal_leb lo x && ereal_leb x hi
      | None => false
      end
  | None => false
  end.

Definition present (key : string) (d : gmap string pyval) : bool :=
  bool_decide (is_Some (d !! key)).

(** The nine rules, in order, for a given reading of "if present" in the wind
    rules. *)
Definition rules_in_words (wind_given : gmap string pyval -> bool)
    : list rule :=
  [ {| violated := missing "station_id";
       reported := fun _ => ("invalid", [Lit "falta station_id"]) |};
    {| violated := missing "temperature_c";
       reported := fun _ => ("invalid", [Lit "falta temperature_c"]) |};
    {| violated := missing "humidity_percent";
       reported := fun _ => ("invalid", [Lit "falta humidity_percent"]) |};
    {| violated := not_numeric "temperature_c";
       reported := fun _ => ("invalid_type", [Lit "temperatura no es numérica"]) |};
    {| violated := fun d =>
         negb (lies_in (Finite (inject_Z (-100))) (Finite (inject_Z 100))
                 (field d "temperature_c"));
       reported := fun d =>
         ("out_of_range",
          [Lit "temperatura "; Fmt (field d "temperature_c");
           Lit "°C fuera de rango [-100, 100]"]) |};
    {| violated := not_numeric "humidity_percent";
       reported := fun _ => ("invalid_type", [Lit "humedad no es numérica"]) |};
    {| violated := fun d =>
         negb (lies_in (Finite (inject_Z 0)) (Finite (inject_Z 100))
                 (field d "humidity_percent"));
       reported := fun d =>
         ("out_of_range",
          [Lit "humedad "; Fmt (field d "humidity_percent");
           Lit "% debe estar [0, 100]"]) |};
    {| violated := fun d =>
         wind_given d && not_numeric "wind_speed_ms" d;
       reported := fun _ => ("invalid_type", [Lit "viento no es numérico"]) |};
    {| violated := fun d =>
         wind_given d &&
         negb (lies_in (Finite (inject_Z 0)) PosInf (field d "wind_speed_ms"));
       reported := fun d =>
         ("out_of_range",
          [Lit "viento "; Fmt (field d "wind_speed_ms");
           Lit " m/s no puede ser negativo"]) |} ].

(** The rules as the specification has them: the wind speed is present when
    the payload has the key. *)
Definition spec_rules : list rule := rules_in_words (present "wind_speed_ms").

(** The rules with a null wind speed counted as absent. *)
Definition null_as_absent_rules : list rule :=
  rules_in_words (not_null "wind_speed_ms").

(** [{station_id: "s", temperature_c: NaN, humidity_percent: "x"}] *)
Definition nan_reading : gmap string pyval :=
  <["station_id" := PyStr "s"]>
  (<["temperature_c" := PyFloat FNaN]>
  (<["humidity_percent" := PyStr "x"]> ∅)).

(** [{station_id: "station_2", temperature_c: 500, humidity_percent: "x",
    wind_speed_ms: -1}] *)
Definition faulty_reading : gmap string pyval :=
  <["humidity_percent" := PyStr "x"]>
  (<["wind_speed_ms" := PyInt (-1)]> hot_reading).

(** ** A body that is not text

    The single byte 255 is not UTF-8: [json.loads] fails on it while decoding
    the bytes, with [UnicodeDecodeError], before any JSON is parsed. *)
Definition non_utf8_body : string :=
  String (Ascii.ascii_of_nat 255) EmptyString.

(** [json.loads] on the bodies of the examples, [non_utf8_body] included. *)
Definition bytes_json_loads (body : string) : result pyval :=
  if String.eqb body non_utf8_body then Raised UnicodeDecodeError
  else sample_json_loads body.

(** * Properties *)

(** ** Comparisons *)

Lemma Qlt_bool_false p q : (q <= p)%Q -> Qlt_bool p q = false.
Proof.
  intros H. unfold Qlt_bool. apply negb_false_iff. by apply Qle_bool_iff.
Qed.

Lemma Qlt_bool_true p q : (p < q)%Q -> Qlt_bool p q = true.
Proof.
  intros H. unfold Qlt_bool. apply negb_true_iff.
  destruct (Qle_bool q p) eqn:E; [|done].
  apply Qle_bool_iff in E. by apply Qle_not_lt in E.
Qed.

Lemma ereal_ltb_false x y : ereal_le y x -> ereal_ltb x y = false.
Proof.
  destruct x as [|p|], y as [|q|]; simpl; try done.
  apply Qlt_bool_false.
Qed.

Lemma num_lt_false a b x y :
  num_ereal a = Some x -> num_ereal b = Some y -> ereal_le y x ->
  num_lt a b = false.
Proof.
  intros Ha Hb Hle. unfold num_lt. rewrite Ha, Hb. by apply ereal_ltb_false.
Qed.

Lemma num_lt_bool_low b z : z <= 0 -> num_lt (NInt (Z.b2z b)) (NInt z) = false.
Proof.
  intros Hz. eapply num_lt_false; [done..|]. simpl.
  rewrite <- Zle_Qle. destruct b; simpl; lia.
Qed.

Lemma num_lt_bool_high b z : 1 <= z -> num_lt (NInt z) (NInt (Z.b2z b)) = false.
Proof.
  intros Hz. eapply num_lt_false; [done..|]. simpl.
  rewrite <- Zle_Qle. destruct b; simpl; lia.
Qed.

(** ** The validator on a JSON object *)

Lemma validate_payload_dict (d : gmap string pyval) :
  validate_payload (PyDict d) =
  Returned (check_fields (d !! "station_id") (d !! "temperature_c")
              (d !! "humidity_percent") (d !! "wind_speed_ms")).
Proof.
  unfold validate_payload, py_get, py_get_default, py_in; simpl.
  destruct (d !! "station_id") as [sid|]; simpl; [|done].
  destruct (d !! "temperature_c") as [t|]; simpl; [|done].
  destruct (d !! "humidity_percent") as [h|]; simpl; [|done].
  destruct (as_number t) as [nt|]; [|done].
  destruct (num_lt nt (NInt (-100)) || num_gt nt (NInt 100)); [done|].
  destruct (as_number h) as [nh|]; [|done].
  destruct (num_lt nh (NInt 0) || num_gt nh (NInt 100)); [done|].
  destruct (default PyNone (d !! "wind_speed_ms")) eqn:Ew; simpl; try done.
  all: match goal with |- context [num_lt ?a ?b] => by destruct (num_lt a b) end.
Qed.

Lemma check_fields_first_failure (d : gmap string pyval) :
  check_fields (d !! "station_id") (d !! "temperature_c")
    (d !! "humidity_percent") (d !! "wind_speed_ms") =
  first_failure validation_rules d.
Proof.
  unfold validation_rules, first_failure, violated, reported.
  unfold missing, not_numeric, outside, below, not_null, field, check_fields.
  destruct (d !! "station_id") as [sid|]; simpl; [|done].
  destruct (d !! "temperature_c") as [t|]; simpl; [|done].
  destruct (d !! "humidity_percent") as [h|]; simpl; [|done].
  destruct (as_number t) as [nt|]; simpl; [|done].
  destruct (num_lt nt (NInt (-100)) || num_gt nt (NInt 100)); simpl; [done|].
  destruct (as_number h) as [nh|]; simpl; [|done].
  destruct (num_lt nh (NInt 0) || num_gt nh (NInt 100)); simpl; [done|].
  destruct (d !! "wind_speed_ms") as [w|]; simpl; [|done].
  destruct w; simpl; try done.
  all: match goal with |- context [num_lt ?a ?b] => by destruct (num_lt a b) end.
Qed.

Lemma validate_payload_rules (d : gmap string pyval) :
  validate_payload (PyDict d) = Returned (first_failure validation_rules d).
Proof. by rewrite validate_payload_dict, check_fields_first_failure. Qed.

(** The verdict of a rule list is that of the rule at the smallest index that
    is violated. *)
Lemma first_failure_earliest rules d (i : nat) r :
  rules !! i = Some r -> violated r d = true ->
  (forall (j : nat) r', (j < i)%nat -> rules !! j = Some r' -> violated r' d = false) ->
  first_failure rules d = (false, fst (reported r d), snd (reported r d)).
Proof.
  revert i. induction rules as [|r0 rules IH]; intros i Hi Hv Hbefore; [done|].
  destruct i as [|i]; simpl in *.
  - injection Hi as ->. by rewrite Hv.
  - rewrite (Hbefore 0%nat r0) by (done || lia).
    apply (IH i); [done..|].
    intros j r' Hj Hr'. apply (Hbefore (S j)); [lia|done].
Qed.

Lemma first_failure_none rules d :
  passes rules d = true -> first_failure rules d = (true, "ok", []).
Proof.
  induction rules as [|r rules IH]; simpl; [done|].
  intros [Hr Hrest]%andb_true_iff. apply negb_true_iff in Hr.
  rewrite Hr. by apply IH.
Qed.

Lemma first_failure_skip front back d :
  passes front d = true ->
  first_failure (front ++ back) d = first_failure back d.
Proof.
  induction front as [|r front IH]; simpl; [done|].
  intros [Hr Hrest]%andb_true_iff. apply negb_true_iff in Hr.
  rewrite Hr. by apply IH.
Qed.

(** ** Valid payloads are accepted *)

Lemma in_interval_inside lo hi v n :
  in_interval lo hi v -> as_number v = Some n ->
  num_lt n (NInt lo) || num_gt n (NInt hi) = false.
Proof.
  intros (n' & x & Hn' & Hx & Hlo & Hhi) Hn.
  assert (n' = n) as -> by congruence.
  apply orb_false_iff. split.
  - by eapply num_lt_false.
  - unfold num_gt. by eapply num_lt_false.
Qed.

Lemma at_least_not_below lo v n :
  at_least lo v -> as_number v = Some n -> num_lt n (NInt lo) = false.
Proof.
  intros (n' & x & Hn' & Hx & Hlo) Hn.
  assert (n' = n) as -> by congruence.
  by eapply num_lt_false.
Qed.

Lemma check_fields_valid sid t h w :
  in_interval (-100) 100 t -> in_interval 0 100 h ->
  (w = None \/ exists v, w = Some v /\ at_least 0 v) ->
  check_fields (Some sid) (Some t) (Some h) w = (true, "ok", []).
Proof.
  intros Htr Hhr Hw. unfold check_fields.
  destruct Htr as (nt & xt & Hnt & Hxt), Hhr as (nh & xh & Hnh & Hxh).
  rewrite Hnt, (in_interval_inside (-100) 100 t) by (done || by exists nt, xt).
  rewrite Hnh, (in_interval_inside 0 100 h) by (done || by exists nh, xh).
  destruct Hw as [-> | (v & -> & Hv)]; [done|]. simpl.
  destruct Hv as (nv & xv & Hnv & Hxv).
  assert (num_lt nv (NInt 0) = false) as Hge
    by (apply (at_least_not_below 0 v); [by exists nv, xv | done]).
  destruct v; simplify_eq/=; by rewrite Hge.
Qed.

(** C5: a payload that has [station_id], a numeric [temperature_c] in
    [-100, 100], a numeric [humidity_percent] in [0, 100], and whose
    [wind_speed_ms] is absent or numeric and at least 0, is accepted with
    status ["ok"] (and the empty reason). *)
Theorem valid_payload_accepted (d : gmap string pyval) (sid t h : pyval) :
  d !! "station_id" = Some sid ->
  d !! "temperature_c" = Some t -> in_interval (-100) 100 t ->
  d !! "humidity_percent" = Some h -> in_interval 0 100 h ->
  (d !! "wind_speed_ms" = None \/
   exists w, d !! "wind_speed_ms" = Some w /\ at_least 0 w) ->
  validate_payload (PyDict d) = Returned (true, "ok", []).
Proof.
  intros Hsid Ht Htr Hh Hhr Hw.
  rewrite validate_payload_dict, Hsid, Ht, Hh. f_equal.
  apply check_fields_valid; [done..|].
  destruct Hw as [-> | (w & -> & Hw)]; [by left | right; by exists w].
Qed.

(** The reading [sample_reading] meets the hypotheses of C5. *)
Lemma valid_payload_accepted_witness :
  validate_payload (PyDict sample_reading) = Returned (true, "ok", []).
Proof.
  apply (valid_payload_accepted sample_reading (PyStr "station_1")
           (PyFloat (FFin (45 # 2))) (PyFloat (FFin (55 # 1)))).
  - reflexivity.
  - reflexivity.
  - exists (NFloat (FFin (45 # 2))), (Finite (45 # 2)).
    repeat split; vm_compute; discriminate.
  - reflexivity.
  - exists (NFloat (FFin (55 # 1))), (Finite (55 # 1)).
    repeat split; vm_compute; discriminate.
  - right. exists (PyFloat (FFin (16 # 5))). split; [reflexivity|].
    exists (NFloat (FFin (16 # 5))), (Finite (16 # 5)).
    repeat split; vm_compute; discriminate.
Defined.

(** ** First failure wins *)

(** On every payload, NaN included, the verdict of [validate_payload] is the
    one of the earliest violated check of [validation_rules]: whenever the
    check at index [i] is violated and no check before it is, the verdict is
    what check [i] reports, whatever the later ones say. So a payload without
    [station_id] whose [temperature_c] is not a number is reported as
    ["invalid"] for the missing key. *)
Theorem first_violated_rule_decides :
  (forall d : gmap string pyval,
     validate_payload (PyDict d) = Returned (first_failure validation_rules d)) /\
  (forall (d : gmap string pyval) (i : nat) r,
     validation_rules !! i = Some r -> violated r d = true ->
     (forall (j : nat) r', (j < i)%nat -> validation_rules !! j = Some r' ->
        violated r' d = false) ->
     validate_payload (PyDict d) =
     Returned (false, fst (reported r d), snd (reported r d))) /\
  (forall (d : gmap string pyval) (s : string),
     validate_payload
       (PyDict (<["temperature_c" := PyStr s]> (delete "station_id" d))) =
     Returned (false, "invalid", [Lit "falta station_id"])).
Proof.
  split_and!.
  - exact validate_payload_rules.
  - intros d i r Hi Hv Hbefore. rewrite validate_payload_rules. f_equal.
    by apply (first_failure_earliest validation_rules d i r).
  - intros d s. rewrite validate_payload_dict.
    by rewrite lookup_insert_ne, lookup_delete_eq.
Qed.

(** ** The wind rule *)

Lemma validate_payload_wind_rules (d : gmap string pyval) :
  passes (take 7 validation_rules) d = true ->
  validate_payload (PyDict d) =
  Returned (first_failure (drop 7 validation_rules) d).
Proof.
  intros Hpass. rewrite validate_payload_rules.
  rewrite <- (take_drop 7 validation_rules) at 1.
  by rewrite first_failure_skip.
Qed.

(** C7, amended: on a payload that passes the rules before the wind rule, a
    [wind_speed_ms] that is absent or null gives ["ok"]; one that is present,
    not null and not a number gives ["invalid_type"]; a number below 0 (-1, for
    one) gives ["out_of_range"]; any other number gives ["ok"]. *)
Theorem wind_rule (d : gmap string pyval) :
  passes (take 7 validation_rules) d = true ->
  (d !! "wind_speed_ms" = None ->
   validate_payload (PyDict d) = Returned (true, "ok", [])) /\
  (d !! "wind_speed_ms" = Some PyNone ->
   validate_payload (PyDict d) = Returned (true, "ok", [])) /\
  (forall w, d !! "wind_speed_ms" = Some w -> w <> PyNone ->
   as_number w = None ->
   validate_payload (PyDict d) =
   Returned (false, "invalid_type", [Lit "viento no es numérico"])) /\
  (forall w n, d !! "wind_speed_ms" = Some w -> as_number w = Some n ->
   num_lt n (NInt 0) = true ->
   validate_payload (PyDict d) =
   Returned (false, "out_of_range",
             [Lit "viento "; Fmt w; Lit " m/s no puede ser negativo"])) /\
  (forall w n, d !! "wind_speed_ms" = Some w -> as_number w = Some n ->
   num_lt n (NInt 0) = false ->
   validate_payload (PyDict d) = Returned (true, "ok", [])) /\
  (d !! "wind_speed_ms" = Some (PyInt (-1)) ->
   validate_payload (PyDict d) =
   Returned (false, "out_of_range",
             [Lit "viento "; Fmt (PyInt (-1)); Lit " m/s no puede ser negativo"])).
Proof.
  intros Hpass. rewrite (validate_payload_wind_rules d Hpass).
  unfold validation_rules, drop, first_failure, violated, reported.
  unfold not_null, not_numeric, below, field.
  repeat split.
  - by intros ->.
  - by intros ->.
  - intros w -> Hnull Hnum. simpl. rewrite Hnum. by destruct w.
  - intros w n -> Hnum Hneg. simpl. rewrite Hnum, Hneg.
    rewrite andb_false_r. done.
  - intros w n -> Hnum Hneg. simpl. rewrite Hnum, Hneg.
    rewrite andb_false_r. done.
  - by intros ->.
Qed.

(** The wind rule on a reading whose wind speed is -1. *)
Lemma wind_rule_witness :
  validate_payload (PyDict negative_wind_reading) =
  Returned (false, "out_of_range",
            [Lit "viento "; Fmt (PyInt (-1)); Lit " m/s no puede ser negativo"]).
Proof.
  apply (wind_rule negative_wind_reading); reflexivity.
Defined.

(** C7 as stated fails: with [wind_speed_ms] present and null (which is not
    a number) on a payload that passes the earlier rules, the verdict is
    ["ok"], not ["invalid_type"]. *)
Lemma null_wind_accepted :
  passes (take 7 validation_rules) null_wind_reading = true /\
  null_wind_reading !! "wind_speed_ms" = Some PyNone /\
  as_number PyNone = None /\
  validate_payload (PyDict null_wind_reading) = Returned (true, "ok", []).
Proof. repeat split; reflexivity. Qed.

(** ** Booleans *)

Lemma check_fields_bool_temp s b h w :
  check_fields s (Some (PyBool b)) h w =
  check_fields s (Some (PyInt (Z.b2z b))) h w.
Proof.
  unfold check_fields, num_gt. destruct s, h; simpl; try done.
  by rewrite num_lt_bool_low, num_lt_bool_high.
Qed.

Lemma check_fields_bool_hum s t b w :
  check_fields s t (Some (PyBool b)) w =
  check_fields s t (Some (PyInt (Z.b2z b))) w.
Proof.
  unfold check_fields, num_gt. destruct s, t; simpl; try done.
  by rewrite num_lt_bool_low, num_lt_bool_high.
Qed.

Lemma check_fields_bool_wind s t h b :
  check_fields s t h (Some (PyBool b)) =
  check_fields s t h (Some (PyInt (Z.b2z b))).
Proof.
  unfold check_fields. destruct s, t, h; simpl; try done.
  by rewrite num_lt_bool_low.
Qed.

Lemma check_fields_bools sid bt bh w :
  w = None \/ (exists bw, w = Some (PyBool bw)) ->
  check_fields (Some sid) (Some (PyBool bt)) (Some (PyBool bh)) w =
  (true, "ok", []).
Proof.
  intros Hw. unfold check_fields, num_gt. simpl.
  rewrite !num_lt_bool_low, !num_lt_bool_high by done. simpl.
  destruct Hw as [-> | [bw ->]]; simpl; [done|].
  by rewrite num_lt_bool_low.
Qed.

(** C10: a boolean passes the numeric type checks and is range-checked as the
    number it stands for: in each of [temperature_c], [humidity_percent] and
    [wind_speed_ms], replacing [true]/[false] by 1/0 leaves the verdict
    unchanged; a payload with a [station_id] whose [temperature_c] and
    [humidity_percent] are booleans, and whose [wind_speed_ms] is absent or a
    boolean, is accepted as ["ok"]; so is
    [{station_id: "s", temperature_c: true, humidity_percent: true}]. *)
Theorem booleans_pass_as_numbers :
  (forall (d : gmap string pyval) b,
     validate_payload (PyDict (<["temperature_c" := PyBool b]> d)) =
     validate_payload (PyDict (<["temperature_c" := PyInt (Z.b2z b)]> d))) /\
  (forall (d : gmap string pyval) b,
     validate_payload (PyDict (<["humidity_percent" := PyBool b]> d)) =
     validate_payload (PyDict (<["humidity_percent" := PyInt (Z.b2z b)]> d))) /\
  (forall (d : gmap string pyval) b,
     validate_payload (PyDict (<["wind_speed_ms" := PyBool b]> d)) =
     validate_payload (PyDict (<["wind_speed_ms" := PyInt (Z.b2z b)]> d))) /\
  (forall (d : gmap string pyval) sid bt bh,
     validate_payload
       (PyDict (<["station_id" := sid]> (<["temperature_c" := PyBool bt]>
               (<["humidity_percent" := PyBool bh]>
               (delete "wind_speed_ms" d))))) =
     Returned (true, "ok", [])) /\
  (forall (d : gmap string pyval) sid bt bh bw,
     validate_payload
       (PyDict (<["station_id" := sid]> (<["temperature_c" := PyBool bt]>
               (<["humidity_percent" := PyBool bh]>
               (<["wind_speed_ms" := PyBool bw]> d))))) =
     Returned (true, "ok", [])) /\
  validate_payload
    (PyDict (<["station_id" := PyStr "s"]> (<["temperature_c" := PyBool true]>
            (<["humidity_percent" := PyBool true]> ∅)))) =
  Returned (true, "ok", []).
Proof.
  split_and!; [| | | | |reflexivity]; intros; rewrite !validate_payload_dict.
  - rewrite !lookup_insert_eq, !lookup_insert_ne by done.
    by rewrite check_fields_bool_temp.
  - rewrite !lookup_insert_eq, !lookup_insert_ne by done.
    by rewrite check_fields_bool_hum.
  - rewrite !lookup_insert_eq, !lookup_insert_ne by done.
    by rewrite check_fields_bool_wind.
  - repeat (rewrite lookup_insert_eq || rewrite lookup_insert_ne by done).
    rewrite lookup_delete_eq. f_equal. apply check_fields_bools. by left.
  - repeat (rewrite lookup_insert_eq || rewrite lookup_insert_ne by done).
    f_equal. apply check_fields_bools. right. by exists bw.
Qed.

(** ** The generator *)

Lemma round_half_even_between (lo hi : Z) (y : Q) :
  (inject_Z lo <= y)%Q -> (y <= inject_Z hi)%Q ->
  lo <= round_half_even y <= hi.
Proof.
  intros Hlo Hhi.
  assert (lo <= Qfloor y) as Hfl
    by (rewrite <- (Qfloor_Z lo); by apply Qfloor_resp_le).
  assert (Qfloor y <= hi) as Hfh
    by (rewrite <- (Qfloor_Z hi); by apply Qfloor_resp_le).
  assert ((y - inject_Z (Qfloor y) ?= 1 # 2)%Q <> Lt -> Qfloor y < hi) as Hup.
  { intros Hcmp. destruct (Z_lt_le_dec (Qfloor y) hi) as [|Hge]; [done|].
    exfalso. apply Hcmp. apply Qlt_alt.
    apply Qle_lt_trans with (y := 0%Q); [|done].
    apply (Qplus_le_l _ _ (inject_Z (Qfloor y))). ring_simplify.
    apply Qle_trans with (y := inject_Z hi); [done|]. by rewrite <- Zle_Qle. }
  unfold round_half_even.
  destruct (y - inject_Z (Qfloor y) ?= 1 # 2)%Q eqn:Hcmp.
  - destruct (Z.even (Qfloor y)); [lia|]. assert (Qfloor y < hi) by by apply Hup. lia.
  - lia.
  - assert (Qfloor y < hi) by by apply Hup. lia.
Qed.

Lemma py_round_between (lo hi : Z) (x : Q) (ndigits : nat) :
  (inject_Z lo <= x)%Q -> (x <= inject_Z hi)%Q ->
  (inject_Z lo <= py_round x ndigits)%Q /\ (py_round x ndigits <= inject_Z hi)%Q.
Proof.
  intros Hlo Hhi. unfold py_round.
  set (p := 10 ^ Z.of_nat ndigits).
  assert (0 < p) as Hp by (apply Z.pow_pos_nonneg; lia).
  assert (0 < inject_Z p)%Q as Hpq
    by (change 0%Q with (inject_Z 0); by rewrite <- Zlt_Qlt).
  destruct (round_half_even_between (lo * p) (hi * p) (x * inject_Z p)) as [Hl Hh].
  - rewrite inject_Z_mult. apply Qmult_le_compat_r; [done|]. by apply Qlt_le_weak.
  - rewrite inject_Z_mult. apply Qmult_le_compat_r; [done|]. by apply Qlt_le_weak.
  - split.
    + apply Qle_shift_div_l; [done|]. rewrite <- inject_Z_mult. by rewrite <- Zle_Qle.
    + apply Qle_shift_div_r; [done|]. rewrite <- inject_Z_mult. by rewrite <- Zle_Qle.
Qed.

Lemma finite_in_interval (lo hi lo' hi' : Z) (q : Q) :
  lo' <= lo -> hi <= hi' ->
  (inject_Z lo <= q)%Q /\ (q <= inject_Z hi)%Q ->
  in_interval lo' hi' (PyFloat (FFin q)).
Proof.
  intros Hlo Hhi [Hl Hh]. exists (NFloat (FFin q)), (Finite q). simpl.
  split_and!; [done..| |].
  - apply Qle_trans with (y := inject_Z lo); [by rewrite <- Zle_Qle | done].
  - apply Qle_trans with (y := inject_Z hi); [done | by rewrite <- Zle_Qle].
Qed.

(** C9: whatever the random source draws within the bounds of
    [random.uniform], the generated payload has its temperature in
    [-10, 40], its humidity in [20, 95] and its wind speed in [0, 25], and
    [validate_payload] accepts it with status ["ok"]. *)
Theorem generated_payload_accepted (r : draws) :
  (inject_Z (-10) <= uniform_m10_40 r)%Q /\ (uniform_m10_40 r <= inject_Z 40)%Q ->
  (inject_Z 20 <= uniform_20_95 r)%Q /\ (uniform_20_95 r <= inject_Z 95)%Q ->
  (inject_Z 0 <= uniform_0_25 r)%Q /\ (uniform_0_25 r <= inject_Z 25)%Q ->
  exists d : gmap string pyval,
    generate_weather_data r = PyDict d /\
    d !! "station_id" = Some (PyStr ("station_" +:+ pretty (randint_1_5 r))) /\
    in_interval (-10) 40 (field d "temperature_c") /\
    in_interval 20 95 (field d "humidity_percent") /\
    in_interval 0 25 (field d "wind_speed_ms") /\
    validate_payload (generate_weather_data r) = Returned (true, "ok", []).
Proof.
  intros [Ht1 Ht2] [Hh1 Hh2] [Hw1 Hw2]. eexists. split; [reflexivity|].
  pose proof (py_round_between (-10) 40 _ 2 Ht1 Ht2) as Ht.
  pose proof (py_round_between 20 95 _ 2 Hh1 Hh2) as Hh.
  pose proof (py_round_between 0 25 _ 3 Hw1 Hw2) as Hw.
  unfold generate_weather_data, field. rewrite validate_payload_dict.
  repeat (rewrite lookup_insert_eq || rewrite lookup_insert_ne by done).
  split_and!; [done| | | |].
  - by apply (finite_in_interval (-10) 40).
  - by apply (finite_in_interval 20 95).
  - by apply (finite_in_interval 0 25).
  - f_equal. apply check_fields_valid.
    + by apply (finite_in_interval (-10) 40).
    + by apply (finite_in_interval 20 95).
    + right. eexists. split; [done|].
      destruct (finite_in_interval 0 25 0 25 _ ltac:(done) ltac:(done) Hw)
        as (n & x & Hn & Hx & Hlo & _).
      by exists n, x.
Qed.

(** The generator on [sample_draws]. *)
Lemma generated_payload_accepted_witness :
  exists d : gmap string pyval,
    generate_weather_data sample_draws = PyDict d /\
    d !! "station_id" = Some (PyStr "station_3") /\
    in_interval (-10) 40 (field d "temperature_c") /\
    in_interval 20 95 (field d "humidity_percent") /\
    in_interval 0 25 (field d "wind_speed_ms") /\
    validate_payload (generate_weather_data sample_draws) =
    Returned (true, "ok", []).
Proof.
  apply (generated_payload_accepted sample_draws);
    split; vm_compute; discriminate.
Defined.

(** ** The persister *)

Ltac run_M :=
  unfold try_except, mbind, M_bind, mret, M_ret, lift, logger, basic_ack,
    basic_nack, utc_now_isoformat, cur_execute, cur_close, db_cursor;
  simpl.

Lemma insert_into_db_dict (d : gmap string pyval) status reason w :
  insert_into_db (PyDict d) status reason w =
  let rest := {| weather_logs := weather_logs (db w);
                 upcoming := tail (upcoming (db w)) |} in
  let final_status := if String.eqb status "ok" then [Lit status] else reason in
  let r := {| col_station_id := field d "station_id";
              col_timestamp := default (PyStr (clock w)) (d !! "timestamp");
              col_temperature_c := field d "temperature_c";
              col_humidity_percent := field d "humidity_percent";
              col_wind_speed_ms := field d "wind_speed_ms";
              col_raw_payload := PyDict d;
              col_status := final_status |} in
  match head (upcoming (db w)) with
  | Some CursorError | Some ExecuteError =>
      (Returned false,
       {| ch := ch w; db := rest;
          log := log w ++ [(ERROR, MsgInsertError DatabaseError)];
          clock := clock w |})
  | Some Healthy | None =>
      (Returned true,
       {| ch := ch w;
          db := {| weather_logs := weather_logs (db w) ++ [r];
                   upcoming := tail (upcoming (db w)) |};
          log := log w ++ [(INFO, MsgSaved (field d "station_id")
                                    (field d "temperature_c") final_status)];
          clock := clock w |})
  end.
Proof.
  unfold insert_into_db. run_M.
  destruct (head (upcoming (db w))) as [[| |]|]; reflexivity.
Qed.

Lemma insert_into_db_not_dict payload status reason w :
  (forall d, payload <> PyDict d) ->
  insert_into_db payload status reason w =
  (Returned false,
   {| ch := ch w;
      db := {| weather_logs := weather_logs (db w);
               upcoming := tail (upcoming (db w)) |};
      log := log w ++ [(ERROR, MsgInsertError
                          match head (upcoming (db w)) with
                          | Some CursorError => DatabaseError
                          | _ => AttributeError
                          end)];
      clock := clock w |}).
Proof.
  intros Hnd. unfold insert_into_db. run_M.
  destruct payload; try (by destruct (Hnd d));
    destruct (head (upcoming (db w))) as [[| |]|]; reflexivity.
Qed.

(** C8: [insert_into_db] never raises. On every payload, status and reason
    it uses the connection once (no retry) and either appends one row, which
    holds the payload and the final status, and returns [True], or leaves the
    table as it was, logs the failure at error level and returns [False]; on a
    JSON object it returns [True] whenever the store accepts the write,
    whatever the status. *)
Theorem insert_into_db_contains_failures payload status reason w :
  exists ok w',
    insert_into_db payload status reason w = (Returned ok, w') /\
    ch w' = ch w /\
    upcoming (db w') = tail (upcoming (db w)) /\
    (if ok then
       exists r,
         weather_logs (db w') = weather_logs (db w) ++ [r] /\
         col_raw_payload r = payload /\
         col_status r = (if String.eqb status "ok" then [Lit "ok"] else reason) /\
         log w' = log w ++ [(INFO, MsgSaved (col_station_id r)
                                     (col_temperature_c r) (col_status r))]
     else
       weather_logs (db w') = weather_logs (db w) /\
       exists e, log w' = log w ++ [(ERROR, MsgInsertError e)]) /\
    (forall d, payload = PyDict d ->
       head (upcoming (db w)) = None \/ head (upcoming (db w)) = Some Healthy ->
       ok = true).
Proof.
  assert (forall s : string,
            (if String.eqb s "ok" then [Lit s] else reason) =
            (if String.eqb s "ok" then [Lit "ok"] else reason)) as Hok.
  { intros s. destruct (String.eqb_spec s "ok") as [->|]; done. }
  destruct payload as [| | | | | |d];
    try (eexists false, _; split;
         [ by apply insert_into_db_not_dict
         | simpl; split_and!; eauto; by intros ? ? ]).
  rewrite insert_into_db_dict. cbv zeta.
  destruct (head (upcoming (db w))) as [[| |]|] eqn:Hhead;
    [ eexists true, _ | eexists false, _ | eexists false, _ | eexists true, _ ];
    (split; [done|]); simpl; split_and!; eauto;
    try (intros ? _ [|]; done);
    try (eexists; simpl; split_and!; eauto; by rewrite Hok).
Qed.

(** What the dispatcher needs of the persister: it returns, and leaves the
    channel alone. *)
Lemma insert_into_db_returns payload status reason w :
  exists ok w',
    insert_into_db payload status reason w = (Returned ok, w') /\
    ch w' = ch w.
Proof.
  destruct payload as [| | | | | |d];
    try (eexists false, _; split; [by apply insert_into_db_not_dict | done]).
  rewrite insert_into_db_dict. cbv zeta.
  destruct (head (upcoming (db w))) as [[| |]|]; by eexists _, _.
Qed.

(** ** The dispatcher *)

Section DispatcherFacts.

Variable json_loads : string -> result pyval.

Lemma on_message_received_validated meth body payload v w :
  json_loads body = Returned payload ->
  validate_payload payload = Returned v ->
  on_message_received json_loads meth body w =
  (Returned tt,
   after_ack meth
     (snd (insert_into_db payload v.1.2 v.2 (before_insert meth payload v w)))).
Proof.
  intros Hload Hval. unfold on_message_received. run_M.
  rewrite Hload, Hval. destruct v as [[valid status] reason].
  destruct valid; simpl;
    unfold before_insert, set_log; simpl; rewrite <- !app_assoc; simpl;
    match goal with
    | |- context [insert_into_db ?p ?s ?r ?w1] =>
        destruct (insert_into_db_returns p s r w1) as (ok & w' & -> & _)
    end; done.
Qed.

Lemma on_message_received_invalid_json meth body w :
  json_loads body = Raised JSONDecodeError ->
  on_message_received json_loads meth body w =
  (Returned tt,
   {| ch := settle (delivery_tag meth) (ch w) (Ack (delivery_tag meth));
      db := db w;
      log := log w ++ [(INFO, MsgReceived (delivery_tag meth));
                       (ERROR, MsgInvalidJSON JSONDecodeError)];
      clock := clock w |}).
Proof.
  intros Hload. unfold on_message_received. run_M. rewrite Hload. simpl.
  unfold set_ch, set_log. simpl. by rewrite <- !app_assoc.
Qed.

(** Any exception other than [JSONDecodeError], raised by the decoder or by
    the validator, ends in a reject without requeue; the store is not
    touched. *)
Lemma on_message_received_failed meth body w e seen :
  e <> JSONDecodeError ->
  (json_loads body = Raised e /\ seen = []) \/
  (exists payload, json_loads body = Returned payload /\
     validate_payload payload = Raised e /\ seen = [(INFO, MsgData payload)]) ->
  on_message_received json_loads meth body w =
  (Returned tt,
   {| ch := settle (delivery_tag meth) (ch w) (Nack (delivery_tag meth) false);
      db := db w;
      log := log w ++ [(INFO, MsgReceived (delivery_tag meth))] ++ seen ++
             [(ERROR, MsgProcessingError e); (INFO, MsgNackSent)];
      clock := clock w |}).
Proof.
  intros He [[Hload ->] | (payload & Hload & Hval & ->)];
    unfold on_message_received; run_M; rewrite Hload; simpl;
    rewrite ?Hval; simpl;
    destruct e; try done; unfold set_ch, set_log; simpl;
    by rewrite <- !app_assoc.
Qed.

(** Every run of the callback settles its own delivery, once: by an ack or
    by a reject without requeue. *)
Lemma on_message_received_settles meth body w :
  exists f,
    (f = Ack (delivery_tag meth) \/ f = Nack (delivery_tag meth) false) /\
    ch (snd (on_message_received json_loads meth body w)) =
    settle (delivery_tag meth) (ch w) f.
Proof.
  destruct (json_loads body) as [payload|e] eqn:Hload.
  - destruct (validate_payload payload) as [v|e] eqn:Hval.
    + rewrite (on_message_received_validated _ _ _ _ _ Hload Hval).
      destruct (insert_into_db_returns payload v.1.2 v.2
                  (before_insert meth payload v w)) as (ok & w' & -> & Hch).
      exists (Ack (delivery_tag meth)). split; [by left|].
      simpl. by rewrite Hch.
    + destruct (decide (e = JSONDecodeError)) as [->|He].
      * exfalso. revert Hval. unfold validate_payload, py_in, py_get, py_get_default.
        destruct payload; simpl; try done; repeat case_match; done.
      * erewrite on_message_received_failed; [|done|right; eauto].
        exists (Nack (delivery_tag meth) false). split; [by right|done].
  - destruct (decide (e = JSONDecodeError)) as [->|He].
    + rewrite (on_message_received_invalid_json _ _ _ Hload).
      exists (Ack (delivery_tag meth)). split; [by left|done].
    + erewrite on_message_received_failed; [|done|left; eauto].
      exists (Nack (delivery_tag meth) false). split; [by right|done].
Qed.

End DispatcherFacts.

(** The validator accepts exactly when it reports the status ["ok"]. *)
Lemma check_fields_status s t h w :
  String.eqb (check_fields s t h w).1.2 "ok" = (check_fields s t h w).1.1.
Proof. unfold check_fields. repeat case_match; done. Qed.

(** ** Acknowledgment *)

Section Acknowledgment.

Variable json_loads : string -> result pyval.

(** C1, amended: for every message whose body decodes to a JSON object, the
    dispatcher validates it, calls the persister with the verdict, and then
    acknowledges the message, whatever the persister returned: the state after
    the callback is the one the persister left, with the ack sent. *)
Theorem decoded_object_persisted_then_acked meth body (d : gmap string pyval) w :
  json_loads body = Returned (PyDict d) ->
  exists v ok w2,
    validate_payload (PyDict d) = Returned v /\
    insert_into_db (PyDict d) v.1.2 v.2 (before_insert meth (PyDict d) v w) =
      (Returned ok, w2) /\
    on_message_received json_loads meth body w = (Returned tt, after_ack meth w2) /\
    frames (ch (after_ack meth w2)) =
      frames (ch w) ++ [Ack (delivery_tag meth)].
Proof.
  intros Hload.
  pose proof (validate_payload_dict d) as Hval.
  set (v := check_fields _ _ _ _) in Hval.
  destruct (insert_into_db_returns (PyDict d) v.1.2 v.2
              (before_insert meth (PyDict d) v w)) as (ok & w2 & Hins & Hch).
  exists v, ok, w2. split_and!; [exact Hval | exact Hins | |].
  - rewrite (on_message_received_validated _ _ _ _ _ _ Hload Hval).
    by rewrite Hins.
  - simpl. by rewrite Hch.
Qed.

(** C2, amended: for every message on whose body [json.loads] raises
    [JSONDecodeError], the dispatcher acknowledges the message and stores
    nothing: the store is left as it was, its connection unused, and only the
    receipt and the decoding error are logged. *)
Theorem invalid_json_acked_not_stored meth body w :
  json_loads body = Raised JSONDecodeError ->
  on_message_received json_loads meth body w =
  (Returned tt,
   {| ch := settle (delivery_tag meth) (ch w) (Ack (delivery_tag meth));
      db := db w;
      log := log w ++ [(INFO, MsgReceived (delivery_tag meth));
                       (ERROR, MsgInvalidJSON JSONDecodeError)];
      clock := clock w |}).
Proof.
  intros Hload. unfold on_message_received. run_M. rewrite Hload. simpl.
  unfold set_ch, set_log. simpl. by rewrite <- !app_assoc.
Qed.

(** C4, amended: every message that decodes to a JSON object, and whose
    write the store accepts, adds exactly one row to the table, whatever the
    validator's verdict: the row's raw payload is the decoded payload itself,
    and its status is ["ok"] when the payload is valid and the validator's
    reason otherwise; the message is then acknowledged. *)
Theorem decoded_object_stored_once meth body (d : gmap string pyval) w :
  json_loads body = Returned (PyDict d) ->
  head (upcoming (db w)) = None \/ head (upcoming (db w)) = Some Healthy ->
  exists valid status reason r,
    validate_payload (PyDict d) = Returned (valid, status, reason) /\
    weather_logs (db (snd (on_message_received json_loads meth body w))) =
      weather_logs (db w) ++ [r] /\
    col_raw_payload r = PyDict d /\
    col_status r = (if valid then [Lit "ok"] else reason) /\
    frames (ch (snd (on_message_received json_loads meth body w))) =
      frames (ch w) ++ [Ack (delivery_tag meth)].
Proof.
  intros Hload Hstore.
  pose proof (validate_payload_dict d) as Hval.
  pose proof (check_fields_status (d !! "station_id") (d !! "temperature_c")
                (d !! "humidity_percent") (d !! "wind_speed_ms")) as Hok.
  destruct (check_fields _ _ _ _) as [[valid status] reason]. simpl in Hok.
  exists valid, status, reason.
  rewrite (on_message_received_validated _ _ _ _ _ _ Hload Hval).
  rewrite insert_into_db_dict. cbv zeta. simpl.
  destruct Hstore as [-> | ->]; simpl; eexists; split_and!; try done.
  all: rewrite Hok; destruct valid; try done.
  all: by apply String.eqb_eq in Hok as ->.
Qed.

End Acknowledgment.

(** The sample reading delivered while the store refuses the write: the
    persister returns [False] and the message is acknowledged all the same. *)
Lemma decoded_object_persisted_then_acked_witness :
  exists v ok w2,
    validate_payload (PyDict sample_reading) = Returned v /\
    insert_into_db (PyDict sample_reading) v.1.2 v.2
      (before_insert first_delivery (PyDict sample_reading) v
         (first_delivery_world failing_store)) = (Returned ok, w2) /\
    on_message_received sample_json_loads first_delivery sample_body
      (first_delivery_world failing_store) =
      (Returned tt, after_ack first_delivery w2) /\
    frames (ch (after_ack first_delivery w2)) =
      frames (ch (first_delivery_world failing_store)) ++
      [Ack (delivery_tag first_delivery)].
Proof.
  apply (decoded_object_persisted_then_acked sample_json_loads first_delivery
           sample_body sample_reading (first_delivery_world failing_store)).
  reflexivity.
Defined.

(** C1 as stated fails: the body [5] decodes, to a number; the validator
    raises on it, so the persister is not called and the message is rejected
    without requeue instead of acknowledged. *)
Lemma decoded_number_rejected :
  sample_json_loads "5" = Returned (PyInt 5) /\
  snd (on_message_received sample_json_loads first_delivery "5"
         (first_delivery_world healthy_store)) =
  {| ch := settle 1 (ch (first_delivery_world healthy_store)) (Nack 1 false);
     db := healthy_store;
     log := [(INFO, MsgReceived 1); (INFO, MsgData (PyInt 5));
             (ERROR, MsgProcessingError TypeError); (INFO, MsgNackSent)];
     clock := clock (first_delivery_world healthy_store) |}.
Proof. split; reflexivity. Qed.

(** The body [station down] is not JSON. *)
Lemma invalid_json_acked_not_stored_witness :
  on_message_received sample_json_loads first_delivery "station down"
    (first_delivery_world healthy_store) =
  (Returned tt,
   {| ch := settle 1 (ch (first_delivery_world healthy_store)) (Ack 1);
      db := healthy_store;
      log := [(INFO, MsgReceived 1); (ERROR, MsgInvalidJSON JSONDecodeError)];
      clock := clock (first_delivery_world healthy_store) |}).
Proof.
  apply (invalid_json_acked_not_stored sample_json_loads first_delivery
           "station down" (first_delivery_world healthy_store)).
  reflexivity.
Defined.

(** The sample reading delivered to a healthy store. *)
Lemma decoded_object_stored_once_witness :
  exists valid status reason r,
    validate_payload (PyDict sample_reading) = Returned (valid, status, reason) /\
    weather_logs (db (snd (on_message_received sample_json_loads first_delivery
                             sample_body (first_delivery_world healthy_store)))) =
      weather_logs (db (first_delivery_world healthy_store)) ++ [r] /\
    col_raw_payload r = PyDict sample_reading /\
    col_status r = (if valid then [Lit "ok"] else reason) /\
    frames (ch (snd (on_message_received sample_json_loads first_delivery
                       sample_body (first_delivery_world healthy_store)))) =
      frames (ch (first_delivery_world healthy_store)) ++
      [Ack (delivery_tag first_delivery)].
Proof.
  apply (decoded_object_stored_once sample_json_loads first_delivery
           sample_body sample_reading (first_delivery_world healthy_store)).
  - reflexivity.
  - left. reflexivity.
Defined.

(** C4 as stated fails: a reading that decodes and is valid is acknowledged
    without a stored row when the store refuses the write, and so is a body
    that decodes to something other than an object, here the empty array,
    with the store healthy. *)
Lemma acked_without_stored_row :
  (sample_json_loads sample_body = Returned (PyDict sample_reading) /\
   frames (ch (snd (on_message_received sample_json_loads first_delivery
                      sample_body (first_delivery_world failing_store)))) =
     [Deliver 1; Ack 1] /\
   weather_logs (db (snd (on_message_received sample_json_loads first_delivery
                            sample_body (first_delivery_world failing_store)))) =
     []) /\
  (sample_json_loads "[]" = Returned (PyList []) /\
   frames (ch (snd (on_message_received sample_json_loads first_delivery
                      "[]" (first_delivery_world healthy_store)))) =
     [Deliver 1; Ack 1] /\
   weather_logs (db (snd (on_message_received sample_json_loads first_delivery
                            "[]" (first_delivery_world healthy_store)))) =
     []).
Proof. split_and!; reflexivity. Qed.

(** ** One message at a time *)

Section Sequencing.

Variable json_loads : string -> result pyval.

Lemma listening_sequential bodies store now :
  sequential (listening bodies store now).
Proof.
  split_and!; [done|by exists QUEUE|]. by exists None.
Qed.

Lemma step_sequential s a :
  sequential s -> sequential (step json_loads s a).
Proof.
  intros Hinv. pose proof Hinv as (Hp & [q Hc] & o & Htr & Hun & Hin).
  destruct a; unfold step.
  - destruct (ready s) as [|body rest]; [done|].
    rewrite Hc. unfold window_open. rewrite Hp, Hun. simpl.
    destruct o as [t|]; simpl; [done|].
    unfold sequential. simpl. split_and!; [done|by exists q|].
    exists (Some (next_tag s)). rewrite fold_left_app, Htr, Hun.
    unfold tags in *. rewrite map_app, Hin. done.
  - destruct (inbox s) as [|[meth body] rest] eqn:Hinbox; [done|].
    unfold tags in Hin. simpl in Hin.
    destruct o as [t|]; [|done]. simpl in Hin.
    injection Hin as <- Hrest. apply map_eq_nil in Hrest as ->.
    destruct (on_message_received_settles json_loads meth body (env s))
      as (f & Hf & Hch).
    unfold sequential. simpl. rewrite Hch. simpl.
    split_and!; [done|by exists q|].
    exists None. rewrite fold_left_app, Htr, Hun. simpl.
    split_and!; [|by rewrite filter_cons_False, filter_nil by (by intros [])|done].
    destruct Hf as [-> | ->]; simpl; by rewrite N.eqb_refl.
Qed.

Lemma run_sequential sched s :
  sequential s -> sequential (run json_loads sched s).
Proof.
  revert s. induction sched as [|a sched IH]; intros s Hs; [done|].
  simpl. apply IH. by apply step_sequential.
Qed.

(** C3: with the channel as [connect_rabbitmq] configures it (prefetch 1) and
    the callback registered under manual acknowledgment, however the broker's
    pushes and the callback's runs interleave, at most one message is
    unacknowledged at any time, it is the one message buffered for the
    callback, and on the channel every delivery comes only after the delivery
    before it was acknowledged or rejected. *)
Theorem one_message_outstanding sched bodies store now :
  (length (unacked (ch (env (run json_loads sched (listening bodies store now))))) <= 1)%nat /\
  tags (inbox (run json_loads sched (listening bodies store now))) =
    unacked (ch (env (run json_loads sched (listening bodies store now)))) /\
  one_at_a_time
    (frames (ch (env (run json_loads sched (listening bodies store now))))) = true.
Proof.
  destruct (run_sequential sched _ (listening_sequential bodies store now))
    as (_ & _ & o & Htr & Hun & Hin).
  unfold one_at_a_time. rewrite Htr, Hun, Hin.
  split_and!; [destruct o; simpl; lia | done |].
  by apply bool_decide_eq_true.
Qed.

End Sequencing.

(** Without [basic_qos(prefetch_count=1)] the broker may push a second
    message while the first is outstanding. *)
Lemma without_qos_two_outstanding :
  unacked (ch (env (run sample_json_loads [BrokerPush; BrokerPush]
                      (listening_without_qos ["5"; "[]"] healthy_store "now")))) =
    [1%N; 2%N] /\
  one_at_a_time
    (frames (ch (env (run sample_json_loads [BrokerPush; BrokerPush]
                        (listening_without_qos ["5"; "[]"] healthy_store "now"))))) =
    false.
Proof. split; reflexivity. Qed.

(** With it, the second push waits for the callback to settle the first
    message, and every message of the queue is delivered in turn. *)
Lemma with_qos_in_turn :
  frames (ch (env (run sample_json_loads
                     [BrokerPush; BrokerPush; ClientDispatch; BrokerPush;
                      ClientDispatch; BrokerPush; ClientDispatch]
                     (listening ["5"; "station down"; "[]"] healthy_store "now")))) =
  [Deliver 1; Nack 1 false; Deliver 2; Ack 2; Deliver 3; Ack 3].
Proof. reflexivity. Qed.

(** * Further properties of the code *)

(** ** The validator: rejections *)

Lemma Qlt_bool_false_inv p q : Qlt_bool p q = false -> (q <= p)%Q.
Proof.
  unfold Qlt_bool. intros H%negb_false_iff. by apply Qle_bool_iff.
Qed.

Lemma num_lt_true a b x y :
  num_ereal a = Some x -> num_ereal b = Some y -> ereal_lt x y ->
  num_lt a b = true.
Proof.
  intros Ha Hb Hlt. unfold num_lt. rewrite Ha, Hb.
  destruct x as [|p|], y as [|q|]; simpl in *; try done.
  by apply Qlt_bool_true.
Qed.

Lemma num_lt_false_inv a b x y :
  num_ereal a = Some x -> num_ereal b = Some y -> num_lt a b = false ->
  ereal_le y x.
Proof.
  intros Ha Hb. unfold num_lt. rewrite Ha, Hb.
  destruct x as [|p|], y as [|q|]; simpl; try done.
  apply Qlt_bool_false_inv.
Qed.

Lemma out_of_interval_outside lo hi v n :
  out_of_interval lo hi v -> as_number v = Some n ->
  num_lt n (NInt lo) || num_gt n (NInt hi) = true.
Proof.
  intros (n' & x & Hn' & Hx & Hout) Hn.
  assert (n' = n) as -> by congruence.
  apply orb_true_iff. destruct Hout as [Hlo | Hhi].
  - left. by eapply num_lt_true.
  - right. unfold num_gt. by eapply num_lt_true.
Qed.

Lemma checks_nan_or_within lo hi v n :
  as_number v = Some n ->
  num_lt n (NInt lo) || num_gt n (NInt hi) = false ->
  nan_or_within (Finite (inject_Z lo)) (Finite (inject_Z hi)) v.
Proof.
  intros Hn [Hlo Hhi]%orb_false_iff. exists n. split; [done|].
  destruct (num_ereal n) as [x|] eqn:Hx; [right | by left].
  exists x. split_and!; [done| |].
  - by apply (num_lt_false_inv n (NInt lo)).
  - by apply (num_lt_false_inv (NInt hi) n).
Qed.

(** X1: a payload that lacks [station_id], [temperature_c] or
    [humidity_percent] is rejected with status ["invalid"], and the reason
    names a missing key, whatever the other fields hold. *)
Theorem missing_required_key_invalid (d : gmap string pyval) :
  d !! "station_id" = None \/ d !! "temperature_c" = None \/
  d !! "humidity_percent" = None ->
  exists key,
    key ∈ ["station_id"; "temperature_c"; "humidity_percent"] /\
    d !! key = None /\
    validate_payload (PyDict d) =
    Returned (false, "invalid", [Lit ("falta " +:+ key)]).
Proof.
  intros Hmiss. rewrite validate_payload_dict. unfold check_fields.
  destruct (d !! "station_id") as [sid|] eqn:Hsid;
    [|exists "station_id"; split_and!; [repeat constructor|done|done]].
  destruct (d !! "temperature_c") as [t|] eqn:Ht;
    [|exists "temperature_c"; split_and!; [repeat constructor|done|done]].
  destruct (d !! "humidity_percent") as [h|] eqn:Hh;
    [|exists "humidity_percent"; split_and!; [repeat constructor|done|done]].
  by destruct Hmiss as [?|[?|?]].
Qed.

(** The sample reading without its humidity. *)
Lemma missing_required_key_invalid_witness :
  exists key,
    key ∈ ["station_id"; "temperature_c"; "humidity_percent"] /\
    delete "humidity_percent" sample_reading !! key = None /\
    validate_payload (PyDict (delete "humidity_percent" sample_reading)) =
    Returned (false, "invalid", [Lit ("falta " +:+ key)]).
Proof.
  apply (missing_required_key_invalid (delete "humidity_percent" sample_reading)).
  right. right. reflexivity.
Defined.

(** X2: the verdict depends on the four fields the validator reads and on
    nothing else: adding, replacing or removing any other key of the payload
    leaves it unchanged. *)
Theorem validator_ignores_other_keys (d : gmap string pyval) key v :
  key <> "station_id" -> key <> "temperature_c" ->
  key <> "humidity_percent" -> key <> "wind_speed_ms" ->
  validate_payload (PyDict (<[key := v]> d)) = validate_payload (PyDict d) /\
  validate_payload (PyDict (delete key d)) = validate_payload (PyDict d).
Proof.
  intros H1 H2 H3 H4. rewrite !validate_payload_dict.
  by rewrite !lookup_insert_ne, !lookup_delete_ne.
Qed.

(** A timestamp that is not even a string changes nothing. *)
Lemma validator_ignores_other_keys_witness :
  validate_payload (PyDict (<["timestamp" := PyInt 0]> hot_reading)) =
    validate_payload (PyDict hot_reading) /\
  validate_payload (PyDict (delete "timestamp" hot_reading)) =
    validate_payload (PyDict hot_reading).
Proof.
  apply (validator_ignores_other_keys hot_reading "timestamp" (PyInt 0)); done.
Defined.

(** X3: what acceptance guarantees. When the validator accepts a JSON
    object, the status is ["ok"] and the reason empty, [station_id] is
    present, [temperature_c] is a number that is NaN or in [-100, 100],
    [humidity_percent] is a number that is NaN or in [0, 100], and
    [wind_speed_ms] is absent, null, or a number that is NaN or at least 0. *)
Theorem accepted_payload_shape (d : gmap string pyval) status reason :
  validate_payload (PyDict d) = Returned (true, status, reason) ->
  status = "ok" /\ reason = [] /\
  is_Some (d !! "station_id") /\
  (exists t, d !! "temperature_c" = Some t /\
     nan_or_within (Finite (inject_Z (-100))) (Finite (inject_Z 100)) t) /\
  (exists h, d !! "humidity_percent" = Some h /\
     nan_or_within (Finite (inject_Z 0)) (Finite (inject_Z 100)) h) /\
  (d !! "wind_speed_ms" = None \/ d !! "wind_speed_ms" = Some PyNone \/
   exists w, d !! "wind_speed_ms" = Some w /\
     nan_or_within (Finite (inject_Z 0)) PosInf w).
Proof.
  rewrite validate_payload_dict. unfold check_fields.
  destruct (d !! "station_id") as [sid|]; [|done].
  destruct (d !! "temperature_c") as [t|]; [|done].
  destruct (d !! "humidity_percent") as [h|]; [|done].
  destruct (as_number t) as [nt|] eqn:Hnt; [|done].
  destruct (num_lt nt (NInt (-100)) || num_gt nt (NInt 100)) eqn:Ht; [done|].
  destruct (as_number h) as [nh|] eqn:Hnh; [|done].
  destruct (num_lt nh (NInt 0) || num_gt nh (NInt 100)) eqn:Hh; [done|].
  assert (forall w nw, as_number w = Some nw -> num_lt nw (NInt 0) = false ->
            nan_or_within (Finite (inject_Z 0)) PosInf w) as Hwind.
  { intros w nw Hnw Hlt. exists nw. split; [done|].
    destruct (num_ereal nw) as [x|] eqn:Hx; [right | by left].
    exists x. split_and!; [done| |by destruct x].
    by apply (num_lt_false_inv nw (NInt 0)). }
  intros Hv.
  assert (status = "ok" /\ reason = [] /\
          (d !! "wind_speed_ms" = None \/ d !! "wind_speed_ms" = Some PyNone \/
           exists w, d !! "wind_speed_ms" = Some w /\
             nan_or_within (Finite (inject_Z 0)) PosInf w)) as (-> & -> & Hw).
  { destruct (d !! "wind_speed_ms") as [w|]; simpl in Hv;
      [|by simplify_eq; split_and!; [..|left]].
    destruct w; simpl in Hv; simplify_eq;
      try (by split_and!; [..|right; left]);
      match type of Hv with
      | context [num_lt ?a ?b] => destruct (num_lt a b) eqn:Hlt; simplify_eq
      end;
      (split_and!; [done..|]); right; right; eexists; (split; [done|]);
      by eapply Hwind. }
  split_and!; [done|done|by eexists| | |done].
  - exists t. split; [done|]. by apply (checks_nan_or_within (-100) 100 t nt).
  - exists h. split; [done|]. by apply (checks_nan_or_within 0 100 h nh).
Qed.

(** The sample reading is accepted. *)
Lemma accepted_payload_shape_witness :
  "ok" = "ok" /\ @nil fpiece = [] /\
  is_Some (sample_reading !! "station_id") /\
  (exists t, sample_reading !! "temperature_c" = Some t /\
     nan_or_within (Finite (inject_Z (-100))) (Finite (inject_Z 100)) t) /\
  (exists h, sample_reading !! "humidity_percent" = Some h /\
     nan_or_within (Finite (inject_Z 0)) (Finite (inject_Z 100)) h) /\
  (sample_reading !! "wind_speed_ms" = None \/
   sample_reading !! "wind_speed_ms" = Some PyNone \/
   exists w, sample_reading !! "wind_speed_ms" = Some w /\
     nan_or_within (Finite (inject_Z 0)) PosInf w).
Proof.
  apply (accepted_payload_shape sample_reading "ok" []). reflexivity.
Defined.

(** X4: on every JSON object the validator returns, with one of the four
    statuses, and the three parts of its verdict agree: it accepts exactly
    with status ["ok"] and the empty reason, and it rejects with status
    ["invalid"], ["invalid_type"] or ["out_of_range"] and a reason that is not
    empty. *)
Theorem verdict_parts_agree (d : gmap string pyval) :
  exists valid status reason,
    validate_payload (PyDict d) = Returned (valid, status, reason) /\
    if valid then status = "ok" /\ reason = []
    else status ∈ ["invalid"; "invalid_type"; "out_of_range"] /\ reason <> [].
Proof.
  rewrite validate_payload_dict. unfold check_fields.
  repeat case_match; eexists _, _, _; (split; [reflexivity|]); simpl;
    (split; [first [done | repeat constructor] | done]).
Qed.

(** X5: a decoded payload that is not an object is never accepted. On
    [null], a boolean or a number the validator raises [TypeError]; on a
    string or an array it reports a missing key as ["invalid"], or raises
    [AttributeError] when the three required names all occur in it. *)
Theorem non_object_never_accepted (payload : pyval) :
  match payload with
  | PyDict _ => True
  | PyNone | PyBool _ | PyInt _ | PyFloat _ =>
      validate_payload payload = Raised TypeError
  | PyStr _ | PyList _ =>
      validate_payload payload = Raised AttributeError \/
      exists key,
        key ∈ ["station_id"; "temperature_c"; "humidity_percent"] /\
        py_in key payload = Returned false /\
        validate_payload payload =
        Returned (false, "invalid", [Lit ("falta " +:+ key)])
  end.
Proof.
  destruct payload as [| | | |s|l|]; try done;
    unfold validate_payload, py_in, py_get, py_get_default; simpl.
  - destruct (str_contains "station_id" s) eqn:H1; simpl;
      [|right; exists "station_id"; split_and!; [repeat constructor|by rewrite H1|done]].
    destruct (str_contains "temperature_c" s) eqn:H2; simpl;
      [|right; exists "temperature_c"; split_and!; [repeat constructor|by rewrite H2|done]].
    destruct (str_contains "humidity_percent" s) eqn:H3; simpl;
      [|right; exists "humidity_percent"; split_and!; [repeat constructor|by rewrite H3|done]].
    by left.
  - destruct (existsb (eq_str "station_id") l) eqn:H1; simpl;
      [|right; exists "station_id"; split_and!; [repeat constructor|by rewrite H1|done]].
    destruct (existsb (eq_str "temperature_c") l) eqn:H2; simpl;
      [|right; exists "temperature_c"; split_and!; [repeat constructor|by rewrite H2|done]].
    destruct (existsb (eq_str "humidity_percent") l) eqn:H3; simpl;
      [|right; exists "humidity_percent"; split_and!; [repeat constructor|by rewrite H3|done]].
    by left.
Qed.

(** X6: a [temperature_c] that is a number below -100 or above 100 is
    reported as ["out_of_range"], with the offending value in the reason, as
    soon as the three required keys are present; the humidity and the wind
    are not looked at. *)
Theorem temperature_out_of_range (d : gmap string pyval) (sid t h : pyval) :
  d !! "station_id" = Some sid ->
  d !! "temperature_c" = Some t -> out_of_interval (-100) 100 t ->
  d !! "humidity_percent" = Some h ->
  validate_payload (PyDict d) =
  Returned (false, "out_of_range",
            [Lit "temperatura "; Fmt t; Lit "°C fuera de rango [-100, 100]"]).
Proof.
  intros Hsid Ht Hout Hh.
  rewrite validate_payload_dict, Hsid, Ht, Hh. unfold check_fields.
  pose proof Hout as (n & x & Hn & _). rewrite Hn.
  by rewrite (out_of_interval_outside (-100) 100 t n).
Qed.

(** A temperature of 500. *)
Lemma temperature_out_of_range_witness :
  validate_payload (PyDict hot_reading) =
  Returned (false, "out_of_range",
            [Lit "temperatura "; Fmt (PyInt 500);
             Lit "°C fuera de rango [-100, 100]"]).
Proof.
  apply (temperature_out_of_range hot_reading (PyStr "station_2") (PyInt 500)
           (PyInt 50)).
  - reflexivity.
  - reflexivity.
  - exists (NInt 500), (Finite (inject_Z 500)).
    split_and!; [reflexivity..|]. right. vm_compute. reflexivity.
  - reflexivity.
Defined.

(** X7: with a temperature in range, a [humidity_percent] that is a number
    below 0 or above 100 is reported as ["out_of_range"], with the offending
    value in the reason. *)
Theorem humidity_out_of_range (d : gmap string pyval) (sid t h : pyval) :
  d !! "station_id" = Some sid ->
  d !! "temperature_c" = Some t -> in_interval (-100) 100 t ->
  d !! "humidity_percent" = Some h -> out_of_interval 0 100 h ->
  validate_payload (PyDict d) =
  Returned (false, "out_of_range",
            [Lit "humedad "; Fmt h; Lit "% debe estar [0, 100]"]).
Proof.
  intros Hsid Ht Hin Hh Hout.
  rewrite validate_payload_dict, Hsid, Ht, Hh. unfold check_fields.
  pose proof Hin as (nt & xt & Hnt & _). rewrite Hnt.
  rewrite (in_interval_inside (-100) 100 t nt) by done.
  pose proof Hout as (nh & xh & Hnh & _). rewrite Hnh.
  by rewrite (out_of_interval_outside 0 100 h nh).
Qed.

(** A humidity of -5. *)
Lemma humidity_out_of_range_witness :
  validate_payload (PyDict dry_reading) =
  Returned (false, "out_of_range",
            [Lit "humedad "; Fmt (PyInt (-5)); Lit "% debe estar [0, 100]"]).
Proof.
  apply (humidity_out_of_range dry_reading (PyStr "station_2") (PyInt 20)
           (PyInt (-5))).
  - reflexivity.
  - reflexivity.
  - exists (NInt 20), (Finite (inject_Z 20)).
    split_and!; [reflexivity..| |]; vm_compute; discriminate.
  - reflexivity.
  - exists (NInt (-5)), (Finite (inject_Z (-5))).
    split_and!; [reflexivity..|]. left. vm_compute. reflexivity.
Defined.

(** X8: NaN and the infinities. The range checks are comparisons, which NaN
    fails on both sides: a payload whose temperature, humidity and wind speed
    are all NaN is accepted. An infinite temperature is out of range, and an
    infinite wind speed is accepted when positive and out of range when
    negative. *)
Theorem nan_passes_range_checks :
  (forall (d : gmap string pyval) sid,
     validate_payload
       (PyDict (<["station_id" := sid]> (<["temperature_c" := PyFloat FNaN]>
               (<["humidity_percent" := PyFloat FNaN]>
               (<["wind_speed_ms" := PyFloat FNaN]> d))))) =
     Returned (true, "ok", [])) /\
  (forall (d : gmap string pyval) sid h negative,
     validate_payload
       (PyDict (<["station_id" := sid]>
               (<["temperature_c" := PyFloat (FInf negative)]>
               (<["humidity_percent" := h]> d)))) =
     Returned (false, "out_of_range",
               [Lit "temperatura "; Fmt (PyFloat (FInf negative));
                Lit "°C fuera de rango [-100, 100]"])) /\
  (forall (d : gmap string pyval) negative,
     passes (take 7 validation_rules) d = true ->
     validate_payload
       (PyDict (<["wind_speed_ms" := PyFloat (FInf negative)]> d)) =
     if negative
     then Returned (false, "out_of_range",
                    [Lit "viento "; Fmt (PyFloat (FInf true));
                     Lit " m/s no puede ser negativo"])
     else Returned (true, "ok", [])).
Proof.
  split_and!.
  - intros d sid. rewrite validate_payload_dict.
    by repeat (rewrite lookup_insert_eq || rewrite lookup_insert_ne by done).
  - intros d sid h negative. rewrite validate_payload_dict.
    repeat (rewrite lookup_insert_eq || rewrite lookup_insert_ne by done).
    by destruct negative.
  - intros d negative Hpass.
    assert (passes (take 7 validation_rules)
              (<["wind_speed_ms" := PyFloat (FInf negative)]> d) = true) as Hpass'.
    { revert Hpass. unfold passes, validation_rules, take, forallb, violated.
      unfold missing, not_numeric, outside, field.
      by rewrite !lookup_insert_ne. }
    rewrite (validate_payload_wind_rules _ Hpass').
    unfold validation_rules, drop, first_failure, violated, reported.
    unfold not_null, not_numeric, below, field. rewrite lookup_insert_eq.
    by destruct negative.
Qed.

(** ** The persister: what is written *)

(** X9: the row written for a JSON object. When the store accepts the
    write, the appended row holds the payload's own [station_id],
    [temperature_c], [humidity_percent] and [wind_speed_ms], each NULL
    ([None]) when the key is absent, the whole payload as raw payload, and as
    timestamp the payload's [timestamp], whatever its type, or the time of the
    write when the payload has none. *)
Theorem stored_row_columns (d : gmap string pyval) status reason w :
  head (upcoming (db w)) = None \/ head (upcoming (db w)) = Some Healthy ->
  exists r w',
    insert_into_db (PyDict d) status reason w = (Returned true, w') /\
    weather_logs (db w') = weather_logs (db w) ++ [r] /\
    col_station_id r = default PyNone (d !! "station_id") /\
    col_temperature_c r = default PyNone (d !! "temperature_c") /\
    col_humidity_percent r = default PyNone (d !! "humidity_percent") /\
    col_wind_speed_ms r = default PyNone (d !! "wind_speed_ms") /\
    col_raw_payload r = PyDict d /\
    col_timestamp r =
      match d !! "timestamp" with
      | Some t => t
      | None => PyStr (clock w)
      end.
Proof.
  intros Hstore. rewrite insert_into_db_dict. cbv zeta.
  destruct Hstore as [-> | ->]; eexists _, _; (split; [reflexivity|]); simpl;
    split_and!; try done; by destruct (d !! "timestamp").
Qed.

(** The sample reading has no timestamp: the row gets the time of the
    write. *)
Lemma stored_row_columns_witness :
  exists r w',
    insert_into_db (PyDict sample_reading) "ok" []
      (first_delivery_world healthy_store) = (Returned true, w') /\
    weather_logs (db w') =
      weather_logs (db (first_delivery_world healthy_store)) ++ [r] /\
    col_station_id r = default PyNone (sample_reading !! "station_id") /\
    col_temperature_c r = default PyNone (sample_reading !! "temperature_c") /\
    col_humidity_percent r =
      default PyNone (sample_reading !! "humidity_percent") /\
    col_wind_speed_ms r = default PyNone (sample_reading !! "wind_speed_ms") /\
    col_raw_payload r = PyDict sample_reading /\
    col_timestamp r =
      match sample_reading !! "timestamp" with
      | Some t => t
      | None => PyStr (clock (first_delivery_world healthy_store))
      end.
Proof.
  apply (stored_row_columns sample_reading "ok" []
           (first_delivery_world healthy_store)).
  left. reflexivity.
Defined.

(** X10: a payload that is not an object is never written. Whatever the
    status, the reason and the store's health, the persister returns [False],
    leaves the table as it was and logs the error it caught (the missing
    [get], or the cursor's failure when that comes first). *)
Theorem non_object_not_stored payload status reason w :
  match payload with
  | PyDict _ => True
  | _ =>
      exists e w',
        insert_into_db payload status reason w = (Returned false, w') /\
        weather_logs (db w') = weather_logs (db w) /\
        log w' = log w ++ [(ERROR, MsgInsertError e)] /\
        (e = AttributeError \/
         e = DatabaseError /\ head (upcoming (db w)) = Some CursorError)
  end.
Proof.
  destruct payload; try done;
    (eexists _, _; split; [by apply insert_into_db_not_dict|]); simpl;
    (split_and!; [done..|]);
    destruct (head (upcoming (db w))) as [[| |]|]; eauto.
Qed.

(** ** The dispatcher: one settlement per delivery *)

Lemma insert_into_db_effect payload status reason w :
  exists ok rows w',
    insert_into_db payload status reason w = (Returned ok, w') /\
    ch w' = ch w /\ clock w' = clock w /\
    weather_logs (db w') = weather_logs (db w) ++ rows /\
    (length rows <= 1)%nat.
Proof.
  destruct payload as [| | | | | |d];
    try (eexists false, [], _; split; [by apply insert_into_db_not_dict|];
         simpl; rewrite app_nil_r; split_and!; (done || lia)).
  rewrite insert_into_db_dict. cbv zeta.
  destruct (head (upcoming (db w))) as [[| |]|];
    [ eexists true, [_], _ | eexists false, [], _
    | eexists false, [], _ | eexists true, [_], _ ];
    (split; [reflexivity|]); simpl; rewrite ?app_nil_r;
    split_and!; (done || lia).
Qed.

Section DispatcherEffects.

Variable json_loads : string -> result pyval.

(** Everything one run of the callback does to the channel, the store and
    the clock. *)
Lemma on_message_received_effect meth body w :
  exists f rows w',
    on_message_received json_loads meth body w = (Returned tt, w') /\
    ch w' = settle (delivery_tag meth) (ch w) f /\
    clock w' = clock w /\
    weather_logs (db w') = weather_logs (db w) ++ rows /\
    ((f = Ack (delivery_tag meth) /\ (length rows <= 1)%nat) \/
     (f = Nack (delivery_tag meth) false /\ db w' = db w /\ rows = [])).
Proof.
  destruct (json_loads body) as [payload|e] eqn:Hload.
  - destruct (validate_payload payload) as [v|e] eqn:Hval.
    + rewrite (on_message_received_validated _ _ _ _ _ _ Hload Hval).
      destruct (insert_into_db_effect payload v.1.2 v.2
                  (before_insert meth payload v w))
        as (ok & rows & w' & -> & Hch & Hclock & Hrows & Hlen).
      exists (Ack (delivery_tag meth)), rows, (after_ack meth w').
      simpl. rewrite Hch, Hclock, Hrows. split_and!; try done. by left.
    + destruct (decide (e = JSONDecodeError)) as [->|He].
      * exfalso. revert Hval.
        unfold validate_payload, py_in, py_get, py_get_default.
        destruct payload; simpl; try done; repeat case_match; done.
      * erewrite on_message_received_failed; [|done|right; eauto].
        exists (Nack (delivery_tag meth) false), []. eexists.
        split; [reflexivity|]. simpl. rewrite app_nil_r.
        split_and!; try done. by right.
  - destruct (decide (e = JSONDecodeError)) as [->|He].
    + rewrite (on_message_received_invalid_json _ _ _ _ Hload).
      exists (Ack (delivery_tag meth)), []. eexists.
      split; [reflexivity|]. simpl. rewrite app_nil_r.
      split_and!; try done. left. split; [done|lia].
    + erewrite on_message_received_failed; [|done|left; eauto].
      exists (Nack (delivery_tag meth) false), []. eexists.
      split; [reflexivity|]. simpl. rewrite app_nil_r.
      split_and!; try done. by right.
Qed.

(** X11: the callback returns normally and settles its delivery exactly
    once, whatever the body, the decoder's answer and the store do: it sends
    one frame, the ack or the reject without requeue of its own delivery tag
    (never a requeue), and the delivery is no longer unacknowledged. *)
Theorem callback_settles_once meth body w :
  exists f w',
    on_message_received json_loads meth body w = (Returned tt, w') /\
    (f = Ack (delivery_tag meth) \/ f = Nack (delivery_tag meth) false) /\
    frames (ch w') = frames (ch w) ++ [f] /\
    (delivery_tag meth ∉ unacked (ch w')) /\
    (forall t, t <> delivery_tag meth ->
       t ∈ unacked (ch w) -> t ∈ unacked (ch w')).
Proof.
  destruct (on_message_received_effect meth body w)
    as (f & rows & w' & Hrun & Hch & _ & _ & Hf).
  exists f, w'. rewrite Hch. simpl. split_and!; [done| |done| |].
  - destruct Hf as [[-> _] | [-> _]]; [by left | by right].
  - intros [Hne _]%list_elem_of_filter. by apply Hne.
  - intros t Hne Hin. by apply list_elem_of_filter.
Qed.

(** X12: a rejected message leaves the store untouched, and a message adds
    at most one row. After any run of the callback the table is the one
    before with at most one row appended; and when the frame sent is a reject,
    the store is exactly as before: no row, and its connection unused. *)
Theorem rejected_leaves_store_untouched meth body w :
  (exists rows,
     weather_logs (db (snd (on_message_received json_loads meth body w))) =
       weather_logs (db w) ++ rows /\
     (length rows <= 1)%nat) /\
  (forall requeue,
     last (frames (ch (snd (on_message_received json_loads meth body w)))) =
       Some (Nack (delivery_tag meth) requeue) ->
     db (snd (on_message_received json_loads meth body w)) = db w).
Proof.
  destruct (on_message_received_effect meth body w)
    as (f & rows & w' & -> & Hch & _ & Hrows & Hf). simpl.
  split.
  - exists rows. split; [done|]. destruct Hf as [[_ ?] | (_ & _ & ->)]; [done|simpl; lia].
  - intros requeue. rewrite Hch. simpl. rewrite last_snoc.
    destruct Hf as [[-> _] | (_ & Hdb & _)]; [done|by intros _].
Qed.

(** X13: an unexpected failure rejects the message without requeue. When
    the decoder raises anything but [JSONDecodeError], or the body decodes to
    [null], a boolean or a number (on which the validator raises), the
    callback sends a reject without requeue, stores nothing, does not use the
    store's connection and logs the error. *)
Theorem unexpected_failure_rejected meth body w :
  (exists e, json_loads body = Raised e /\ e <> JSONDecodeError) \/
  (exists payload, json_loads body = Returned payload /\
     match payload with
     | PyNone | PyBool _ | PyInt _ | PyFloat _ => True
     | _ => False
     end) ->
  exists e w',
    on_message_received json_loads meth body w = (Returned tt, w') /\
    frames (ch w') = frames (ch w) ++ [Nack (delivery_tag meth) false] /\
    db w' = db w /\
    (ERROR, MsgProcessingError e) ∈ log w'.
Proof.
  intros [(e & Hload & He) | (payload & Hload & Hscalar)].
  - exists e. eexists. split.
    + apply (on_message_received_failed _ _ _ _ e []); [done|]. by left.
    + simpl. split_and!; [done..|]. set_unfold. naive_solver.
  - exists TypeError. eexists. split.
    + apply (on_message_received_failed _ _ _ _ TypeError [(INFO, MsgData payload)]);
        [done|]. right. exists payload.
      split_and!; [done| |done]. by destruct payload.
    + simpl. split_and!; [done..|]. set_unfold. naive_solver.
Qed.

End DispatcherEffects.

(** The body [5] decodes to a number. *)
Lemma unexpected_failure_rejected_witness :
  exists e w',
    on_message_received sample_json_loads first_delivery "5"
      (first_delivery_world healthy_store) = (Returned tt, w') /\
    frames (ch w') =
      frames (ch (first_delivery_world healthy_store)) ++
      [Nack (delivery_tag first_delivery) false] /\
    db w' = db (first_delivery_world healthy_store) /\
    (ERROR, MsgProcessingError e) ∈ log w'.
Proof.
  apply (unexpected_failure_rejected sample_json_loads first_delivery "5"
           (first_delivery_world healthy_store)).
  right. exists (PyInt 5). split; [reflexivity | exact I].
Defined.

(** ** The consuming loop: progress *)

Section Progress.

Variable json_loads : string -> result pyval.

Lemma run_app sched1 sched2 s :
  run json_loads (sched1 ++ sched2) s =
  run json_loads sched2 (run json_loads sched1 s).
Proof. apply fold_left_app. Qed.

Lemma run_snoc sched a s :
  run json_loads (sched ++ [a]) s = step json_loads (run json_loads sched s) a.
Proof. unfold run. by rewrite fold_left_app. Qed.

(** X14: the callback always reopens the prefetch window. With the channel
    as [connect_rabbitmq] configures it and the broker pushing under the
    prefetch rule, after any history that ends with a run of the callback
    nothing is buffered, nothing is unacknowledged, and the broker may push
    the next message: no message stays outstanding once its callback has
    run. *)
Theorem dispatch_reopens_window sched bodies store now :
  inbox (run json_loads (sched ++ [ClientDispatch])
           (listening bodies store now)) = [] /\
  unacked (ch (env (run json_loads (sched ++ [ClientDispatch])
                      (listening bodies store now)))) = [] /\
  window_open (ch (env (run json_loads (sched ++ [ClientDispatch])
                          (listening bodies store now)))) = true.
Proof.
  rewrite run_snoc.
  pose proof (run_sequential json_loads sched _
                (listening_sequential bodies store now)) as Hinv.
  set (s1 := run json_loads sched (listening bodies store now)) in *.
  pose proof (step_sequential json_loads s1 ClientDispatch Hinv)
    as (Hp & _ & o & _ & Hun & Hin).
  assert (inbox (step json_loads s1 ClientDispatch) = []) as Hempty.
  { destruct Hinv as (_ & _ & o1 & _ & _ & Hin1). unfold step.
    destruct (inbox s1) as [|[meth body] rest] eqn:Hinbox; [done|]. simpl.
    destruct o1; [|done]. unfold tags in Hin1. simpl in Hin1.
    injection Hin1 as _ Hrest. by apply map_eq_nil in Hrest. }
  rewrite Hempty in Hin. destruct o; [done|].
  unfold window_open. rewrite Hp, Hun. done.
Qed.

Lemma drain_idle s :
  idle s ->
  idle (run json_loads (in_turn (length (ready s))) s) /\
  ready (run json_loads (in_turn (length (ready s))) s) = [] /\
  next_tag (run json_loads (in_turn (length (ready s))) s) =
    (next_tag s + N.of_nat (length (ready s)))%N /\
  deliveries (frames (ch (env (run json_loads (in_turn (length (ready s))) s)))) =
    deliveries (frames (ch (env s))) ++
    map (fun i => (next_tag s + N.of_nat i)%N) (seq 0 (length (ready s))) /\
  length (frames (ch (env (run json_loads (in_turn (length (ready s))) s)))) =
    (length (frames (ch (env s))) + 2 * length (ready s))%nat.
Proof.
  remember (length (ready s)) as n eqn:Hn. revert s Hn.
  induction n as [|n IH]; intros s Hn Hidle.
  - simpl. destruct (ready s); [|done].
    rewrite N.add_0_r, app_nil_r. split_and!; (done || lia).
  - destruct Hidle as (Hp & [q Hc] & Hin & Hun).
    destruct (ready s) as [|body rest] eqn:Hready; [done|].
    simpl in Hn. injection Hn as Hn.
    change (in_turn (S n)) with ([BrokerPush; ClientDispatch] ++ in_turn n).
    rewrite run_app.
    set (s2 := run json_loads [BrokerPush; ClientDispatch] s).
    destruct (on_message_received_settles json_loads
                {| delivery_tag := next_tag s |} body
                (set_ch (push (next_tag s) false (ch (env s))) (env s)))
      as (f & Hf & Hch).
    assert (ready s2 = rest /\ next_tag s2 = N.succ (next_tag s) /\
            inbox s2 = [] /\
            ch (env s2) =
              settle (next_tag s) (push (next_tag s) false (ch (env s))) f)
      as (Hr2 & Ht2 & Hi2 & Hc2).
    { unfold s2. simpl. rewrite Hready, Hc. unfold window_open.
      rewrite Hp, Hun, Hin. simpl. by rewrite Hch. }
    assert (idle s2) as Hidle2.
    { unfold idle. rewrite Hc2, Hi2. simpl. rewrite Hun. simpl.
      split_and!; [done|by exists q|done|].
      by rewrite filter_cons_False, filter_nil by (by intros []). }
    destruct (IH s2) as (Hidle' & Hready' & Htag' & Hdel' & Hlen');
      [by rewrite Hr2|done|].
    split_and!; [done|done| | |].
    + rewrite Htag', Ht2. lia.
    + rewrite Hdel', Hc2. simpl. unfold deliveries.
      rewrite !omap_app. simpl.
      assert (match f with Deliver t => Some t | _ => None end = None) as ->
        by (by destruct Hf as [-> | ->]).
      rewrite app_nil_r, <- app_assoc. f_equal. simpl. rewrite N.add_0_r.
      f_equal. rewrite <- seq_shift, map_map. apply map_ext.
      intros i. rewrite Ht2. lia.
    + rewrite Hlen', Hc2. simpl. rewrite !length_app. simpl. lia.
Qed.

(** X15: the queue is drained. With the broker pushing and the callback
    running in turn, once per queued message, no push is ever withheld: as
    many deliveries are made as messages were queued, under the delivery tags
    1, 2, ..., each settled by its callback; in the end nothing is ready,
    buffered or unacknowledged, and the channel carried two frames per
    message. *)
Theorem queue_drained bodies store now :
  ready (run json_loads (in_turn (length bodies))
           (listening bodies store now)) = [] /\
  inbox (run json_loads (in_turn (length bodies))
           (listening bodies store now)) = [] /\
  unacked (ch (env (run json_loads (in_turn (length bodies))
                      (listening bodies store now)))) = [] /\
  deliveries (frames (ch (env (run json_loads (in_turn (length bodies))
                                 (listening bodies store now))))) =
    map (fun i => N.of_nat (S i)) (seq 0 (length bodies)) /\
  length (frames (ch (env (run json_loads (in_turn (length bodies))
                             (listening bodies store now))))) =
    (2 * length bodies)%nat.
Proof.
  destruct (drain_idle (listening bodies store now))
    as ((_ & _ & Hin & Hun) & Hready & _ & Hdel & Hlen).
  { split_and!; [done|by exists QUEUE|done|done]. }
  simpl in *. split_and!; [done..| |done].
  rewrite Hdel. apply map_ext. intros i. lia.
Qed.

End Progress.

(** ** Connecting to the store *)

(** X16: [connect_db] retries until it connects. After any number [k] of
    attempts that raise [OperationalError] it is still retrying; if the next
    attempt connects, it returns that connection in autocommit mode, having
    logged an error and a retry notice and slept 3 seconds for each failed
    attempt; if the next attempt raises any other exception, that exception
    is not retried and leaves [connect_db]. *)
Theorem connect_db_retries_until_connected (k : nat) rest :
  connect_db (replicate k RaisesOperationalError) = None /\
  connect_db (replicate k RaisesOperationalError ++ Connects :: rest) =
    Some (Returned {| autocommit := true |},
          mjoin (replicate k [LogConnectError; LogRetrying; Slept 3]) ++
          [LogConnected]) /\
  (forall e,
     connect_db (replicate k RaisesOperationalError ++ RaisesOther e :: rest) =
     Some (Raised e,
           mjoin (replicate k [LogConnectError; LogRetrying; Slept 3]))).
Proof.
  induction k as [|k (IH1 & IH2 & IH3)]; [done|].
  simpl. rewrite IH1, IH2. split_and!; [done..|].
  intros e. by rewrite IH3.
Qed.

(** ** The publisher *)

Ltac run_P :=
  unfold Producer.basic_publish, Producer.exchange_declare;
  unfold Producer.try_except, mbind, Producer.P_bind, mret, Producer.P_ret,
    Producer.lift, Producer.logger, Producer.uuid4, Producer.time_time_ms,
    Producer.sleep, Producer.broker_answer, Producer.broker_takes,
    Producer.broker_declares, Producer.any_exception;
  simpl.

Lemma generated_getitem r :
  Producer.py_getitem (generate_weather_data r) "station_id" =
    Producer.Done (PyStr ("station_" +:+ pretty (randint_1_5 r))) /\
  Producer.py_getitem (generate_weather_data r) "temperature_c" =
    Producer.Done (PyFloat (FFin (py_round (uniform_m10_40 r) 2))).
Proof.
  unfold generate_weather_data, Producer.py_getitem.
  by repeat (rewrite lookup_insert_eq || rewrite lookup_insert_ne by done).
Qed.

Section PublisherFacts.

Variable json_dumps : pyval -> string.

Lemma publish_message_effect payload s :
  exists s',
    Producer.publish_message json_dumps payload s = (Producer.Done tt, s') /\
    Producer.declared s' = Producer.declared s /\
    Producer.answers s' = tail (Producer.answers s) /\
    Producer.slept s' = Producer.slept s /\
    Producer.time_ms s' = Producer.time_ms s /\
    Producer.uuid_of s' = Producer.uuid_of s /\
    Producer.uuids_drawn s' = S (Producer.uuids_drawn s) /\
    match head (Producer.answers s) with
    | Some (Producer.Refuses e) =>
        Producer.outbox s' = Producer.outbox s /\
        Producer.log s' =
          Producer.log s ++ [(ERROR, Producer.MsgPublishError e)]
    | Some Producer.Accepts | None =>
        Producer.outbox s' = Producer.outbox s ++ [published json_dumps payload s] /\
        Producer.log s' =
          Producer.log s ++
          [match Producer.py_getitem payload "station_id",
                 Producer.py_getitem payload "temperature_c" with
           | Producer.Done station, Producer.Done temp =>
               (INFO, Producer.MsgPublished station temp)
           | Producer.Failed e, _ | Producer.Done _, Producer.Failed e =>
               (ERROR, Producer.MsgPublishError e)
           end]
    end.
Proof.
  unfold Producer.publish_message. run_P.
  destruct (head (Producer.answers s)) as [[|e]|]; simpl;
    try (destruct (Producer.py_getitem payload "station_id"); simpl;
         destruct (Producer.py_getitem payload "temperature_c"); simpl);
    eexists; (split; [reflexivity|]); simpl; split_and!; done.
Qed.

(** X17: [publish_message] never raises and publishes at most once. It
    makes one call on the channel; when the broker accepts it, exactly one
    message is added, to the exchange [weather_exchange] under the routing
    key [weather.logs], persistent (delivery mode 2), of content type
    [application/json], with the payload's JSON text as body and a fresh id
    and the current time; when the broker refuses it, nothing is added and
    the error is logged. The exchanges declared are not touched. *)
Theorem publish_message_contained payload s :
  exists s',
    Producer.publish_message json_dumps payload s = (Producer.Done tt, s') /\
    Producer.declared s' = Producer.declared s /\
    Producer.answers s' = tail (Producer.answers s) /\
    match head (Producer.answers s) with
    | Some (Producer.Refuses e) =>
        Producer.outbox s' = Producer.outbox s /\
        Producer.log s' =
          Producer.log s ++ [(ERROR, Producer.MsgPublishError e)]
    | Some Producer.Accepts | None =>
        Producer.outbox s' =
        Producer.outbox s ++
        [{| Producer.pub_exchange := "weather_exchange";
            Producer.pub_routing_key := "weather.logs";
            Producer.pub_body := json_dumps payload;
            Producer.pub_properties :=
              {| Producer.delivery_mode := 2;
                 Producer.content_type := "application/json";
                 Producer.message_id :=
                   Producer.uuid_of s (Producer.uuids_drawn s);
                 Producer.timestamp := Producer.time_ms s |} |}]
    end.
Proof.
  destruct (publish_message_effect payload s)
    as (s' & Hrun & Hdecl & Hans & _ & _ & _ & _ & Hout).
  exists s'. split_and!; [done..|].
  destruct (head (Producer.answers s)) as [[|e]|]; [by destruct Hout|done|by destruct Hout].
Qed.

(** X18: a published message can be logged as a failure. The success line
    reads [payload['station_id']] and [payload['temperature_c']] inside the
    same [try]: for a payload that lacks one of them (or is not an object),
    the broker has already taken the message when the lookup raises, and the
    only log line is the publishing error. *)
Theorem published_yet_logged_as_error payload s e :
  head (Producer.answers s) = None \/
  head (Producer.answers s) = Some Producer.Accepts ->
  Producer.py_getitem payload "station_id" = Producer.Failed e \/
  (exists v, Producer.py_getitem payload "station_id" = Producer.Done v /\
     Producer.py_getitem payload "temperature_c" = Producer.Failed e) ->
  exists s' p,
    Producer.publish_message json_dumps payload s = (Producer.Done tt, s') /\
    Producer.outbox s' = Producer.outbox s ++ [p] /\
    Producer.pub_body p = json_dumps payload /\
    Producer.log s' = Producer.log s ++ [(ERROR, Producer.MsgPublishError e)].
Proof.
  intros Hans Hget.
  destruct (publish_message_effect payload s)
    as (s' & Hrun & _ & _ & _ & _ & _ & _ & Hout).
  exists s', (published json_dumps payload s).
  assert (Producer.outbox s' = Producer.outbox s ++ [published json_dumps payload s] /\
          Producer.log s' =
            Producer.log s ++
            [match Producer.py_getitem payload "station_id",
                   Producer.py_getitem payload "temperature_c" with
             | Producer.Done station, Producer.Done temp =>
                 (INFO, Producer.MsgPublished station temp)
             | Producer.Failed e, _ | Producer.Done _, Producer.Failed e =>
                 (ERROR, Producer.MsgPublishError e)
             end]) as [Hbox Hlog]
    by (by destruct Hans as [Ha | Ha]; rewrite Ha in Hout).
  split_and!; [done..|]. rewrite Hlog.
  by destruct Hget as [-> | (v & -> & ->)].
Qed.

Lemma loop_body_effect r count s :
  exists s',
    Producer.loop_body json_dumps r count s = (Producer.Done (S count), s') /\
    Producer.declared s' = Producer.declared s /\
    Producer.answers s' = tail (Producer.answers s) /\
    Producer.slept s' = Producer.slept s + 2 /\
    (exists l, Producer.log s' = Producer.log s ++ l) /\
    Producer.outbox s' =
      match head (Producer.answers s) with
      | Some (Producer.Refuses _) => Producer.outbox s
      | _ =>
          Producer.outbox s ++
          [published json_dumps (generate_weather_data r) s]
      end.
Proof.
  destruct (publish_message_effect (generate_weather_data r) s)
    as (s1 & Hrun & Hdecl & Hans & Hslept & _ & _ & _ & Hout).
  unfold Producer.loop_body. run_P. rewrite Hrun. simpl.
  eexists. split; [reflexivity|]. simpl.
  split_and!; [done|done|by rewrite Hslept| |].
  - destruct (head (Producer.answers s)) as [[|e]|];
      destruct Hout as [_ ->]; by eexists.
  - destruct (head (Producer.answers s)) as [[|e]|]; by destruct Hout.
Qed.

Lemma publication_loop_effect ticks count s :
  exists s',
    Producer.publication_loop json_dumps ticks count s =
      (Producer.Done (count + length ticks)%nat, s') /\
    Producer.declared s' = Producer.declared s /\
    Producer.slept s' = Producer.slept s + 2 * Z.of_nat (length ticks) /\
    (exists l, Producer.log s' = Producer.log s ++ l) /\
    Producer.pub_body <$> Producer.outbox s' =
      (Producer.pub_body <$> Producer.outbox s) ++
      ((fun r => json_dumps (generate_weather_data r)) <$>
         Producer.accepted_ticks ticks (Producer.answers s)) /\
    (Forall (fun p => Producer.delivery_mode (Producer.pub_properties p) = 2)
       (Producer.outbox s) ->
     Forall (fun p => Producer.delivery_mode (Producer.pub_properties p) = 2)
       (Producer.outbox s')).
Proof.
  revert count s. induction ticks as [|r ticks IH]; intros count s.
  - exists s. simpl. rewrite Nat.add_0_r, Z.add_0_r, app_nil_r.
    split_and!; try done. exists []. by rewrite app_nil_r.
  - destruct (loop_body_effect r count s)
      as (s1 & Hbody & Hdecl1 & Hans1 & Hslept1 & [l1 Hlog1] & Hout1).
    destruct (IH (S count) s1)
      as (s' & Hloop & Hdecl & Hslept & [l Hlog] & Hout & Hpers).
    exists s'. simpl. rewrite Hbody, Hloop.
    split_and!.
    + f_equal. f_equal. lia.
    + congruence.
    + rewrite Hslept, Hslept1. lia.
    + exists (l1 ++ l). by rewrite Hlog, Hlog1, app_assoc.
    + rewrite Hout, Hout1, Hans1.
      destruct (head (Producer.answers s)) as [[|e]|]; [|done|];
        by rewrite fmap_app, <- app_assoc.
    + intros Hall. apply Hpers. rewrite Hout1.
      destruct (head (Producer.answers s)) as [[|e]|]; [|done|];
        (apply Forall_app; split; [done|]); by repeat constructor.
Qed.

(** X19: the session counter counts iterations, not publications. After
    the first [n] iterations of the publishing loop the counter has grown by
    [n] and the loop has slept [2 n] seconds, whatever the broker answered;
    the bodies added on the broker are the JSON texts of exactly the readings
    whose publication it accepted, in order; and every message added is
    persistent. *)
Theorem loop_counts_every_iteration ticks count s :
  exists s',
    Producer.publication_loop json_dumps ticks count s =
      (Producer.Done (count + length ticks)%nat, s') /\
    Producer.slept s' = Producer.slept s + 2 * Z.of_nat (length ticks) /\
    Producer.pub_body <$> Producer.outbox s' =
      (Producer.pub_body <$> Producer.outbox s) ++
      ((fun r => json_dumps (generate_weather_data r)) <$>
         Producer.accepted_ticks ticks (Producer.answers s)) /\
    (length (Producer.outbox s') <=
       length (Producer.outbox s) + length ticks)%nat /\
    (Forall (fun p => Producer.delivery_mode (Producer.pub_properties p) = 2)
       (Producer.outbox s) ->
     Forall (fun p => Producer.delivery_mode (Producer.pub_properties p) = 2)
       (Producer.outbox s')).
Proof.
  destruct (publication_loop_effect ticks count s)
    as (s' & Hloop & _ & Hslept & _ & Hout & Hpers).
  exists s'. split_and!; [done..| |done].
  apply (f_equal length) in Hout.
  rewrite length_app, !length_fmap in Hout. rewrite Hout.
  apply Nat.add_le_mono_l.
  clear. generalize (Producer.answers s).
  induction ticks as [|r ticks IH]; intros answers; simpl; [done|].
  destruct (head answers) as [[|e]|]; simpl;
    specialize (IH (tail answers)); lia.
Qed.

End PublisherFacts.

(** The sample reading without its station: the broker takes it, the log
    reports a [KeyError]. *)
Lemma published_yet_logged_as_error_witness :
  exists s' p,
    Producer.publish_message generated_json_dumps
      (PyDict (delete "station_id" sample_reading)) (Producer.fresh []) =
      (Producer.Done tt, s') /\
    Producer.outbox s' = Producer.outbox (Producer.fresh []) ++ [p] /\
    Producer.pub_body p =
      generated_json_dumps (PyDict (delete "station_id" sample_reading)) /\
    Producer.log s' =
      Producer.log (Producer.fresh []) ++
      [(ERROR, Producer.MsgPublishError Producer.KeyError)].
Proof.
  apply (published_yet_logged_as_error generated_json_dumps
           (PyDict (delete "station_id" sample_reading)) (Producer.fresh [])
           Producer.KeyError).
  - left. reflexivity.
  - left. reflexivity.
Defined.

Section Sessions.

Variable json_dumps : pyval -> string.

(** X20: what a failed declaration does to a session. When declaring the
    exchange raises a channel error, [declare_exchange] swallows it: nothing
    is declared, and the session still runs its publishing loop and reports
    its total. When it raises anything else, the session ends at once with
    the fatal error logged: nothing is published and no total is reported.
    When the broker accepts, the durable direct exchange [weather_exchange]
    is declared before the loop runs. *)
Theorem session_after_declaration ticks s :
  exists s',
    Producer.session json_dumps ticks s = (Producer.Done tt, s') /\
    match head (Producer.answers s) with
    | Some (Producer.Refuses Producer.AMQPChannelError) =>
        Producer.declared s' = Producer.declared s /\
        (exists l,
           Producer.log s' =
           Producer.log s ++
           [(ERROR, Producer.MsgDeclareError Producer.AMQPChannelError)] ++ l ++
           [(INFO, Producer.MsgSessionTotal (length ticks))]) /\
        Producer.pub_body <$> Producer.outbox s' =
          (Producer.pub_body <$> Producer.outbox s) ++
          ((fun r => json_dumps (generate_weather_data r)) <$>
             Producer.accepted_ticks ticks (tail (Producer.answers s)))
    | Some (Producer.Refuses e) =>
        Producer.declared s' = Producer.declared s /\
        Producer.outbox s' = Producer.outbox s /\
        Producer.log s' = Producer.log s ++ [(ERROR, Producer.MsgFatal e)]
    | Some Producer.Accepts | None =>
        Producer.declared s' =
          Producer.declared s ++ [("weather_exchange", "direct", true)] /\
        (exists l,
           Producer.log s' =
           Producer.log s ++
           [(INFO, Producer.MsgExchangeDeclared "weather_exchange")] ++ l ++
           [(INFO, Producer.MsgSessionTotal (length ticks))]) /\
        Producer.pub_body <$> Producer.outbox s' =
          (Producer.pub_body <$> Producer.outbox s) ++
          ((fun r => json_dumps (generate_weather_data r)) <$>
             Producer.accepted_ticks ticks (tail (Producer.answers s)))
    end.
Proof.
  unfold Producer.session, Producer.declare_exchange. run_P.
  assert (forall s1 : Producer.state,
            exists s' l,
              (let (o, s'0) := Producer.publication_loop json_dumps ticks 0 s1 in
               match o with
               | Producer.Done a =>
                   (Producer.Done (),
                    {| Producer.declared := Producer.declared s'0;
                       Producer.outbox := Producer.outbox s'0;
                       Producer.answers := Producer.answers s'0;
                       Producer.uuid_of := Producer.uuid_of s'0;
                       Producer.uuids_drawn := Producer.uuids_drawn s'0;
                       Producer.time_ms := Producer.time_ms s'0;
                       Producer.slept := Producer.slept s'0;
                       Producer.log :=
                         Producer.log s'0 ++
                         [(INFO, Producer.MsgSessionTotal a)] |})
               | Producer.Failed e => (Producer.Failed e, s'0)
               end) = (Producer.Done tt, s') /\
              Producer.declared s' = Producer.declared s1 /\
              Producer.log s' =
                Producer.log s1 ++ l ++
                [(INFO, Producer.MsgSessionTotal (length ticks))] /\
              Producer.pub_body <$> Producer.outbox s' =
                (Producer.pub_body <$> Producer.outbox s1) ++
                ((fun r => json_dumps (generate_weather_data r)) <$>
                   Producer.accepted_ticks ticks (Producer.answers s1)))
    as Hloop.
  { intros s1.
    destruct (publication_loop_effect json_dumps ticks 0 s1)
      as (s2 & -> & Hdecl & _ & [l Hlog] & Hout & _).
    eexists _, l. split; [reflexivity|]. simpl.
    split_and!; [done| |done]. by rewrite Hlog, app_assoc. }
  destruct (head (Producer.answers s)) as [[|e]|] eqn:Hhead; simpl.
  - match goal with
    | |- context [Producer.publication_loop json_dumps ticks 0 ?s1] =>
        destruct (Hloop s1) as (s' & l & -> & Hdecl & Hlog & Hout)
    end.
    exists s'. split; [done|]. simpl in *.
    split_and!; [done| |done]. exists l. by rewrite Hlog, <- app_assoc.
  - destruct e; simpl;
      try (eexists; split; [reflexivity|]; simpl; by split_and!).
    match goal with
    | |- context [Producer.publication_loop json_dumps ticks 0 ?s1] =>
        destruct (Hloop s1) as (s' & l & -> & Hdecl & Hlog & Hout)
    end.
    exists s'. split; [done|]. simpl in *.
    split_and!; [done| |done]. exists l. by rewrite Hlog, <- app_assoc.
  - match goal with
    | |- context [Producer.publication_loop json_dumps ticks 0 ?s1] =>
        destruct (Hloop s1) as (s' & l & -> & Hdecl & Hlog & Hout)
    end.
    exists s'. split; [done|]. simpl in *.
    split_and!; [done| |done]. exists l. by rewrite Hlog, <- app_assoc.
Qed.

End Sessions.

(** ** From the generator to the table *)

Lemma generated_valid (r : draws) :
  (inject_Z (-10) <= uniform_m10_40 r)%Q /\ (uniform_m10_40 r <= inject_Z 40)%Q ->
  (inject_Z 20 <= uniform_20_95 r)%Q /\ (uniform_20_95 r <= inject_Z 95)%Q ->
  (inject_Z 0 <= uniform_0_25 r)%Q /\ (uniform_0_25 r <= inject_Z 25)%Q ->
  validate_payload (generate_weather_data r) = Returned (true, "ok", []).
Proof.
  intros [Ht1 Ht2] [Hh1 Hh2] [Hw1 Hw2].
  pose proof (py_round_between (-10) 40 _ 2 Ht1 Ht2) as Ht.
  pose proof (py_round_between 20 95 _ 2 Hh1 Hh2) as Hh.
  pose proof (py_round_between 0 25 _ 3 Hw1 Hw2) as Hw.
  unfold generate_weather_data. rewrite validate_payload_dict.
  repeat (rewrite lookup_insert_eq || rewrite lookup_insert_ne by done).
  f_equal. apply check_fields_valid.
  - by apply (finite_in_interval (-10) 40).
  - by apply (finite_in_interval 20 95).
  - right. eexists. split; [done|].
    destruct (finite_in_interval 0 25 0 25 _ ltac:(done) ltac:(done) Hw)
      as (n & x & Hn & Hx & Hlo & _).
    by exists n, x.
Qed.

Section EndToEnd.

Variable json_dumps : pyval -> string.
Variable json_loads : string -> result pyval.

(** X21: a generated reading ends as one row with status ["ok"]. If the
    decoder gives back the generated payload from its JSON text, the draws are
    within the bounds of [random.uniform], the broker accepts the publication
    and the store accepts the write, then [publish_message] puts one message
    on the broker, and the consumer's callback on that message's body appends
    exactly one row, whose status is ["ok"], whose raw payload is the
    generated payload and whose columns are the generated station, temperature,
    humidity, wind speed and timestamp, and acknowledges the delivery. *)
Theorem generated_reading_stored_ok (r : draws) ps meth w :
  json_loads (json_dumps (generate_weather_data r)) =
    Returned (generate_weather_data r) ->
  (inject_Z (-10) <= uniform_m10_40 r)%Q /\ (uniform_m10_40 r <= inject_Z 40)%Q ->
  (inject_Z 20 <= uniform_20_95 r)%Q /\ (uniform_20_95 r <= inject_Z 95)%Q ->
  (inject_Z 0 <= uniform_0_25 r)%Q /\ (uniform_0_25 r <= inject_Z 25)%Q ->
  head (Producer.answers ps) = None \/
  head (Producer.answers ps) = Some Producer.Accepts ->
  head (upcoming (db w)) = None \/ head (upcoming (db w)) = Some Healthy ->
  exists ps' p,
    Producer.publish_message json_dumps (generate_weather_data r) ps =
      (Producer.Done tt, ps') /\
    Producer.outbox ps' = Producer.outbox ps ++ [p] /\
    weather_logs
      (db (snd (on_message_received json_loads meth (Producer.pub_body p) w))) =
      weather_logs (db w) ++
      [{| col_station_id := PyStr ("station_" +:+ pretty (randint_1_5 r));
          col_timestamp := PyStr (now_isoformat r);
          col_temperature_c := PyFloat (FFin (py_round (uniform_m10_40 r) 2));
          col_humidity_percent := PyFloat (FFin (py_round (uniform_20_95 r) 2));
          col_wind_speed_ms := PyFloat (FFin (py_round (uniform_0_25 r) 3));
          col_raw_payload := generate_weather_data r;
          col_status := [Lit "ok"] |}] /\
    frames (ch (snd (on_message_received json_loads meth (Producer.pub_body p) w))) =
      frames (ch w) ++ [Ack (delivery_tag meth)].
Proof.
  intros Hload Ht Hh Hw Hbroker Hstore.
  destruct (publish_message_effect json_dumps (generate_weather_data r) ps)
    as (ps' & Hrun & _ & _ & _ & _ & _ & _ & Hout).
  exists ps', (published json_dumps (generate_weather_data r) ps).
  split; [done|].
  split; [destruct Hbroker as [Ha | Ha]; rewrite Ha in Hout; by destruct Hout|].
  simpl. pose proof (generated_valid r Ht Hh Hw) as Hval.
  rewrite (on_message_received_validated _ _ _ _ _ _ Hload Hval).
  pose proof (insert_into_db_dict _ "ok" []
                (before_insert meth (generate_weather_data r) (true, "ok", []) w)
              : insert_into_db (generate_weather_data r) "ok" [] _ = _) as Hins.
  cbv zeta in Hins. unfold field in Hins.
  repeat (rewrite lookup_insert_eq in Hins
          || rewrite lookup_insert_ne in Hins by done).
  simpl in *. rewrite Hins.
  destruct Hstore as [-> | ->]; split; reflexivity.
Qed.

End EndToEnd.

(** The reading generated from [sample_draws], published to a broker that
    accepts it and consumed with a healthy store. *)
Lemma generated_reading_stored_ok_witness :
  exists ps' p,
    Producer.publish_message generated_json_dumps
      (generate_weather_data sample_draws) (Producer.fresh []) =
      (Producer.Done tt, ps') /\
    Producer.outbox ps' = Producer.outbox (Producer.fresh []) ++ [p] /\
    weather_logs
      (db (snd (on_message_received generated_json_loads first_delivery
                  (Producer.pub_body p) (first_delivery_world healthy_store)))) =
      weather_logs (db (first_delivery_world healthy_store)) ++
      [{| col_station_id :=
            PyStr ("station_" +:+ pretty (randint_1_5 sample_draws));
          col_timestamp := PyStr (now_isoformat sample_draws);
          col_temperature_c :=
            PyFloat (FFin (py_round (uniform_m10_40 sample_draws) 2));
          col_humidity_percent :=
            PyFloat (FFin (py_round (uniform_20_95 sample_draws) 2));
          col_wind_speed_ms :=
            PyFloat (FFin (py_round (uniform_0_25 sample_draws) 3));
          col_raw_payload := generate_weather_data sample_draws;
          col_status := [Lit "ok"] |}] /\
    frames (ch (snd (on_message_received generated_json_loads first_delivery
                       (Producer.pub_body p)
                       (first_delivery_world healthy_store)))) =
      frames (ch (first_delivery_world healthy_store)) ++
      [Ack (delivery_tag first_delivery)].
Proof.
  apply (generated_reading_stored_ok generated_json_dumps generated_json_loads
           sample_draws (Producer.fresh []) first_delivery
           (first_delivery_world healthy_store)).
  - reflexivity.
  - split; vm_compute; discriminate.
  - split; vm_compute; discriminate.
  - split; vm_compute; discriminate.
  - left. reflexivity.
  - left. reflexivity.
Defined.

(** * Revisited: decoding failures and the order of the rules *)

(** C2 as stated fails: a body that is not UTF-8 text fails to decode, with
    [UnicodeDecodeError]; that is not the exception the acknowledging handler
    names, so the generic handler rejects the message without requeue. *)
Lemma non_utf8_body_rejected :
  bytes_json_loads non_utf8_body = Raised UnicodeDecodeError /\
  snd (on_message_received bytes_json_loads first_delivery non_utf8_body
         (first_delivery_world healthy_store)) =
  {| ch := settle 1 (ch (first_delivery_world healthy_store)) (Nack 1 false);
     db := healthy_store;
     log := [(INFO, MsgReceived 1);
             (ERROR, MsgProcessingError UnicodeDecodeError);
             (INFO, MsgNackSent)];
     clock := clock (first_delivery_world healthy_store) |}.
Proof. split; reflexivity. Qed.

(** ** The rules in words against the code's comparisons *)

Lemma ereal_leb_le x y : ereal_leb x y = true <-> ereal_le x y.
Proof.
  destruct x as [|p|], y as [|q|]; simpl; try done.
  apply Qle_bool_iff.
Qed.

Lemma ereal_ltb_leb x y : ereal_ltb x y = negb (ereal_leb y x).
Proof. by destruct x as [|p|], y as [|q|]. Qed.

(** [lies_in] is the range of C5. *)
Lemma lies_in_in_interval (lo hi : Z) v :
  lies_in (Finite (inject_Z lo)) (Finite (inject_Z hi)) v = true <->
  in_interval lo hi v.
Proof.
  unfold lies_in, in_interval. split.
  - destruct (as_number v) as [n|]; [|done].
    destruct (num_ereal n) as [x|] eqn:Hx; [|done].
    intros [Hlo Hhi]%andb_true_iff. exists n, x.
    split_and!; [done|done| |]; by apply ereal_leb_le.
  - intros (n & x & -> & -> & Hlo & Hhi).
    apply andb_true_iff. split; by apply ereal_leb_le.
Qed.

Lemma number_not_nan v n :
  as_number v = Some n -> v <> PyFloat FNaN -> is_Some (num_ereal n).
Proof.
  destruct v as [|b|z|f|s|l|d]; simpl; intros Hn Hnan; simplify_eq; try done.
  destruct f as [|negative|q]; [done|by destruct negative|done].
Qed.

Lemma range_check_in_words (lo hi : Z) v n :
  as_number v = Some n -> v <> PyFloat FNaN ->
  num_lt n (NInt lo) || num_gt n (NInt hi) =
  negb (lies_in (Finite (inject_Z lo)) (Finite (inject_Z hi)) v).
Proof.
  intros Hn Hnan. destruct (number_not_nan v n Hn Hnan) as [x Hx].
  unfold lies_in, num_gt, num_lt. rewrite Hn, Hx.
  destruct x as [|q|]; simpl; unfold Qlt_bool; by rewrite ?negb_andb.
Qed.

Lemma below_zero_in_words v n :
  as_number v = Some n -> v <> PyFloat FNaN ->
  num_lt n (NInt 0) = negb (lies_in (Finite (inject_Z 0)) PosInf v).
Proof.
  intros Hn Hnan. destruct (number_not_nan v n Hn Hnan) as [x Hx].
  unfold lies_in, num_lt. rewrite Hn, Hx.
  destruct x as [|q|]; simpl; unfold Qlt_bool; by rewrite ?andb_true_r.
Qed.

Lemma validate_payload_in_words (d : gmap string pyval) :
  field d "temperature_c" <> PyFloat FNaN ->
  field d "humidity_percent" <> PyFloat FNaN ->
  field d "wind_speed_ms" <> PyFloat FNaN ->
  validate_payload (PyDict d) =
  Returned (first_failure null_as_absent_rules d).
Proof.
  intros Ht Hh Hw. rewrite validate_payload_dict. f_equal.
  unfold null_as_absent_rules, rules_in_words, first_failure, violated, reported.
  unfold missing, not_numeric, not_null, check_fields.
  unfold field in *.
  destruct (d !! "station_id") as [sid|]; simpl; [|done].
  destruct (d !! "temperature_c") as [t|]; simpl in *; [|done].
  destruct (d !! "humidity_percent") as [h|]; simpl in *; [|done].
  destruct (as_number t) as [nt|] eqn:Hnt; simpl; [|done].
  rewrite <- (range_check_in_words (-100) 100 t nt) by done.
  destruct (num_lt nt (NInt (-100)) || num_gt nt (NInt 100)); simpl; [done|].
  destruct (as_number h) as [nh|] eqn:Hnh; simpl; [|done].
  rewrite <- (range_check_in_words 0 100 h nh) by done.
  destruct (num_lt nh (NInt 0) || num_gt nh (NInt 100)); simpl; [done|].
  destruct (d !! "wind_speed_ms") as [w|]; simpl in *; [|done].
  destruct (as_number w) as [nw|] eqn:Hnw.
  - rewrite <- (below_zero_in_words w nw) by done.
    destruct w; simplify_eq/=; by destruct (num_lt _ _).
  - by destruct w.
Qed.

(** C6, amended: with a null [wind_speed_ms] counted as absent, and on every
    payload whose temperature, humidity and wind speed are not NaN,
    [validate_payload] checks the rules of the specification in their order
    (missing station_id, missing temperature_c, missing humidity_percent,
    temperature type then range, humidity type then range, wind type then
    range) and the first violated rule alone determines the status and the
    reason: whenever the rule at index [i] is violated and no rule before it
    is, the verdict is what rule [i] reports, whatever the later rules say. So
    a payload without [station_id] whose [temperature_c] is not a number is
    reported as ["invalid"] for the missing key. *)
Theorem earliest_rule_decides (d : gmap string pyval) :
  field d "temperature_c" <> PyFloat FNaN ->
  field d "humidity_percent" <> PyFloat FNaN ->
  field d "wind_speed_ms" <> PyFloat FNaN ->
  validate_payload (PyDict d) =
    Returned (first_failure null_as_absent_rules d) /\
  (forall (i : nat) r,
     null_as_absent_rules !! i = Some r -> violated r d = true ->
     (forall (j : nat) r', (j < i)%nat -> null_as_absent_rules !! j = Some r' ->
        violated r' d = false) ->
     validate_payload (PyDict d) =
     Returned (false, fst (reported r d), snd (reported r d))) /\
  (d !! "station_id" = None -> as_number (field d "temperature_c") = None ->
   validate_payload (PyDict d) =
   Returned (false, "invalid", [Lit "falta station_id"])).
Proof.
  intros Ht Hh Hw.
  pose proof (validate_payload_in_words d Ht Hh Hw) as Hrules.
  split_and!.
  - done.
  - intros i r Hi Hv Hbefore. rewrite Hrules. f_equal.
    by apply (first_failure_earliest null_as_absent_rules d i r).
  - intros Hsid _. rewrite Hrules.
    unfold null_as_absent_rules, rules_in_words, first_failure, violated,
      reported, missing.
    by rewrite Hsid.
Qed.

(** A reading that violates the temperature range, the humidity type and
    range, and the wind range: the temperature is what is reported. *)
Lemma earliest_rule_decides_witness :
  validate_payload (PyDict faulty_reading) =
    Returned (first_failure null_as_absent_rules faulty_reading) /\
  (forall (i : nat) r,
     null_as_absent_rules !! i = Some r -> violated r faulty_reading = true ->
     (forall (j : nat) r', (j < i)%nat -> null_as_absent_rules !! j = Some r' ->
        violated r' faulty_reading = false) ->
     validate_payload (PyDict faulty_reading) =
     Returned (false, fst (reported r faulty_reading),
               snd (reported r faulty_reading))) /\
  (faulty_reading !! "station_id" = None ->
   as_number (field faulty_reading "temperature_c") = None ->
   validate_payload (PyDict faulty_reading) =
   Returned (false, "invalid", [Lit "falta station_id"])).
Proof.
  apply (earliest_rule_decides faulty_reading); discriminate.
Defined.

(** The rules [faulty_reading] violates, and its verdict. *)
Lemma faulty_reading_verdict :
  map (fun r => violated r faulty_reading) null_as_absent_rules =
    [false; false; false; false; true; true; true; false; true] /\
  validate_payload (PyDict faulty_reading) =
    Returned (false, "out_of_range",
              [Lit "temperatura "; Fmt (PyInt 500);
               Lit "°C fuera de rango [-100, 100]"]).
Proof. split; reflexivity. Qed.

(** C6 as stated fails, on payloads that violate several rules of the
    specification. A NaN temperature does not lie in [-100, 100], so with a
    humidity that is not a number the earliest violated rule is the
    temperature range; the validator reports the humidity type. A null wind
    speed is present, is not a number and is not non-negative, so the earliest
    violated rule is the wind type; the validator accepts. *)
Lemma spec_rules_not_followed :
  (map (fun r => violated r nan_reading) spec_rules =
     [false; false; false; false; true; true; true; false; false] /\
   first_failure spec_rules nan_reading =
     (false, "out_of_range",
      [Lit "temperatura "; Fmt (PyFloat FNaN);
       Lit "°C fuera de rango [-100, 100]"]) /\
   validate_payload (PyDict nan_reading) =
     Returned (false, "invalid_type", [Lit "humedad no es numérica"])) /\
  (map (fun r => violated r null_wind_reading) spec_rules =
     [false; false; false; false; false; false; false; true; true] /\
   first_failure spec_rules null_wind_reading =
     (false, "invalid_type", [Lit "viento no es numérico"]) /\
   validate_payload (PyDict null_wind_reading) = Returned (true, "ok", [])).
Proof. split_and!; reflexivity. Qed.
